(** * Jasoos backend: the chat relay and the score relay

    A shallow embedding of [backend/models.py], [backend/routers/score.py]
    and [backend/routers/chat.py], and the properties of the two request
    handlers: the short-circuit tiers and the fallback parsing chain of
    [score_reasoning], and the prompt assembly and fragment forwarding of
    [chat].

    Python values are modelled as the interpreter has them: a [str] is a
    sequence of Unicode code points, an [int] is unbounded, a [float] is an
    IEEE binary64 number, a [dict] keeps its keys in insertion order, and an
    exception either propagates or is caught by the nearest enclosing
    handler.  The hosted completion API is an oracle: the handlers are
    defined for every behaviour of the client, and every call made to it is
    recorded. *)

From Stdlib Require Import ZArith NArith List Bool Lia.
From Stdlib Require Import Strings.String Strings.Ascii Numbers.DecimalString.
From Stdlib Require Import Floats.PrimFloat Floats.SpecFloat Floats.FloatOps.
From Stdlib Require Import Numbers.Cyclic.Int63.Uint63.
From ExtLib Require Import Structures.Monad Structures.MonadExc.
Import ListNotations.
Import MonadNotation.

Set Warnings "-inexact-float,-register-all".
Set Implicit Arguments.

Local Open Scope bool_scope.
Local Open Scope list_scope.
Local Open Scope monad_scope.

(* ===================================================================== *)
(** ** Python text *)
(* ===================================================================== *)

Module PyStr.

(** A character is a Unicode code point, a text a list of them. *)
Abbreviation char := N (only parsing).
Abbreviation pystr := (list N) (only parsing).

(** An ASCII literal, read as text. *)
Definition str (s : string) : pystr :=
  List.map N_of_ascii (list_ascii_of_string s).

(** The double quote and the line feed, which the literals above cannot
    hold. *)
Definition DQ : pystr := [34%N].
Definition LF : pystr := [10%N].

Fixpoint eqb (a b : pystr) : bool :=
  match a, b with
  | [], [] => true
  | x :: a', y :: b' => N.eqb x y && eqb a' b'
  | _, _ => false
  end.

(** [len(s)] *)
Definition len (s : pystr) : Z := Z.of_nat (List.length s).

(** [s.startswith(prefix)] *)
Fixpoint startswith (s prefix : pystr) {struct prefix} : bool :=
  match prefix, s with
  | [], _ => true
  | p :: prefix', c :: s' => N.eqb p c && startswith s' prefix'
  | _ :: _, [] => false
  end.

Fixpoint find_from (i : Z) (s sub : pystr) : Z :=
  if startswith s sub then i
  else match s with
       | [] => (-1)%Z
       | _ :: s' => find_from (i + 1) s' sub
       end.

(** [s.find(sub)]: the lowest index where [sub] occurs, or [-1]. *)
Definition find (s sub : pystr) : Z := find_from 0 s sub.

Fixpoint rfind_from (i : Z) (s sub : pystr) : Z :=
  match s with
  | [] => if startswith [] sub then i else (-1)%Z
  | _ :: s' =>
      let later := rfind_from (i + 1) s' sub in
      if (0 <=? later)%Z then later
      else if startswith s sub then i else (-1)%Z
  end.

(** [s.rfind(sub)]: the highest index where [sub] occurs, or [-1]. *)
Definition rfind (s sub : pystr) : Z := rfind_from 0 s sub.

(** A slice bound, as Python normalises it against the length. *)
Definition slice_index (n i : Z) : Z :=
  if (i <? 0)%Z then Z.max 0 (i + n) else Z.min i n.

(** [s[start:stop]] *)
Definition slice (s : pystr) (start stop : Z) : pystr :=
  let n := len s in
  let a := slice_index n start in
  let b := slice_index n stop in
  firstn (Z.to_nat (b - a)) (skipn (Z.to_nat a) s).

Definition between (lo hi c : N) : bool := N.leb lo c && N.leb c hi.

(** [c.isspace()]: the code points the interpreter treats as white space. *)
Definition isspace (c : char) : bool :=
  between 0x09 0x0D c || between 0x1C 0x20 c
  || N.eqb c 0x85 || N.eqb c 0xA0 || N.eqb c 0x1680
  || between 0x2000 0x200A c
  || N.eqb c 0x2028 || N.eqb c 0x2029 || N.eqb c 0x202F
  || N.eqb c 0x205F || N.eqb c 0x3000.

Fixpoint lstrip (s : pystr) : pystr :=
  match s with
  | c :: s' => if isspace c then lstrip s' else s
  | [] => []
  end.

Definition rstrip (s : pystr) : pystr := rev (lstrip (rev s)).

(** [s.strip()] *)
Definition strip (s : pystr) : pystr := rstrip (lstrip s).

(** The decimal rendering of an integer, [str(n)]. *)
Definition of_Z (z : Z) : pystr :=
  str (DecimalString.NilZero.string_of_int (Z.to_int z)).

End PyStr.
Import PyStr.

(* ===================================================================== *)
(** ** Python values, exceptions *)
(* ===================================================================== *)

(** The values a decoded JSON document is made of.  A [float] is kept as
    the literal that denotes it: the handlers pass such values through and
    never compute with them. *)
Inductive pyvalue : Type :=
| PyNone
| PyBool (b : bool)
| PyInt (z : Z)
| PyFloat (literal : pystr)
| PyStr (s : pystr)
| PyList (items : list pyvalue)
| PyDict (items : list (pystr * pyvalue)).

(** A [dict] with text keys: the entries in insertion order, one per key. *)
Definition pydict := list (pystr * pyvalue).

Fixpoint dict_lookup (d : pydict) (key : pystr) : option pyvalue :=
  match d with
  | [] => None
  | (k, v) :: d' => if PyStr.eqb k key then Some v else dict_lookup d' key
  end.

(** [d.get(key, default)] *)
Definition dict_get (d : pydict) (key : pystr) (default : pyvalue) : pyvalue :=
  match dict_lookup d key with
  | Some v => v
  | None => default
  end.

(** [d[key] = v]: a key already present keeps its place. *)
Fixpoint dict_set (d : pydict) (key : pystr) (v : pyvalue) : pydict :=
  match d with
  | [] => [(key, v)]
  | (k, w) :: d' =>
      if PyStr.eqb k key then (k, v) :: d' else (k, w) :: dict_set d' key v
  end.

(** An exception instance: a Python exception of some class with the text
    [str(e)] gives, or the framework's [HTTPException]. *)
Inductive exn : Type :=
| PyExn (cls : string) (message : pystr)
| HTTPException (status_code : Z) (detail : pystr).

(** [str(e)] *)
Definition exn_str (e : exn) : pystr :=
  match e with
  | PyExn _ message => message
  | HTTPException status_code detail =>
      PyStr.of_Z status_code ++ str ": " ++ detail
  end.

(** What evaluating an expression comes to: a value, or a raised
    exception. *)
Inductive outcome (A : Type) : Type :=
| Return (a : A)
| Raise (e : exn).
Arguments Return {A} a.
Arguments Raise {A} e.

#[global] Instance Monad_outcome : Monad outcome :=
  {| ret := fun _ a => Return a;
     bind := fun _ _ m k => match m with
                            | Return a => k a
                            | Raise e => Raise e
                            end |}.

#[global] Instance Exc_outcome : MonadExc exn outcome :=
  {| raise := fun _ e => Raise e;
     catch := fun _ m handler => match m with
                                 | Return a => Return a
                                 | Raise e => handler e
                                 end |}.

Definition AttributeError (type attr : string) : exn :=
  PyExn "AttributeError"
    (str "'" ++ str type ++ str "' object has no attribute '" ++ str attr ++ str "'").
Definition IndexError : exn := PyExn "IndexError" (str "list index out of range").

(** [l[0]] *)
Definition index0 {A : Type} (l : list A) : outcome A :=
  match l with
  | a :: _ => Return a
  | [] => Raise IndexError
  end.

(** An attribute of a value that may be [None]. *)
Definition attr_of {A : Type} (o : option A) (attr : string) : outcome A :=
  match o with
  | Some a => Return a
  | None => Raise (AttributeError "NoneType" attr)
  end.

(* ===================================================================== *)
(** ** The built-ins the score relay parses with *)
(* ===================================================================== *)

(** Decimal digit strings, shared by [int()] and the JSON decoder. *)
Module Digits.

Definition is_digit (c : char) : bool := between 48 57 c.

(** The value of a run of ASCII digits. *)
Definition value (ds : pystr) : Z :=
  fold_left (fun acc c => (10 * acc + (Z.of_N c - 48))%Z) ds 0%Z.

(** [sys.int_max_str_digits], at its default: a longer digit string is
    refused with a [ValueError]. *)
Definition int_max_str_digits : nat := 4300.

(** The leading run of characters satisfying [p], and what follows it. *)
Fixpoint span (p : char -> bool) (s : pystr) : pystr * pystr :=
  match s with
  | c :: s' => if p c then let (run, rest) := span p s' in (c :: run, rest)
               else ([], s)
  | [] => ([], [])
  end.

End Digits.

(** [json.loads] on a [str], as the interpreter's accelerated scanner reads
    it (strict mode, no hooks).  The interpreter's bound on nesting depth
    is not modelled. *)
Module Json.

Inductive presult (A : Type) : Type :=
| Parsed (a : A) (rest : pystr)
| Invalid
| OutOfFuel.
Arguments Parsed {A} a rest.
Arguments Invalid {A}.
Arguments OutOfFuel {A}.

Definition is_whitespace (c : char) : bool :=
  N.eqb c 32 || N.eqb c 9 || N.eqb c 10 || N.eqb c 13.

Fixpoint skip_ws (s : pystr) : pystr :=
  match s with
  | c :: s' => if is_whitespace c then skip_ws s' else s
  | [] => []
  end.

Definition hex_value (c : char) : option N :=
  if between 48 57 c then Some (c - 48)%N
  else if between 97 102 c then Some (c - 87)%N
  else if between 65 70 c then Some (c - 55)%N
  else None.

(** The code unit of a [\uXXXX] escape. *)
Definition hex4 (a b c d : char) : option N :=
  match hex_value a, hex_value b, hex_value c, hex_value d with
  | Some x, Some y, Some z, Some w => Some (((x * 16 + y) * 16 + z) * 16 + w)%N
  | _, _, _, _ => None
  end.

Definition is_high_surrogate (u : N) : bool := between 0xD800 0xDBFF u.
Definition is_low_surrogate (u : N) : bool := between 0xDC00 0xDFFF u.
Definition join_surrogates (hi lo : N) : N :=
  (0x10000 + (N.lor (N.shiftl (hi - 0xD800) 10) (lo - 0xDC00)))%N.

(** The character a one-letter escape stands for. *)
Definition unescape (e : char) : option char :=
  if N.eqb e 34 then Some 34%N
  else if N.eqb e 92 then Some 92%N
  else if N.eqb e 47 then Some 47%N
  else if N.eqb e 98 then Some 8%N
  else if N.eqb e 102 then Some 12%N
  else if N.eqb e 110 then Some 10%N
  else if N.eqb e 114 then Some 13%N
  else if N.eqb e 116 then Some 9%N
  else None.

(** The body of a string literal, read from just after its opening
    quote; [acc] holds the characters decoded so far, last first. *)
Fixpoint scanstring (s acc : pystr) : presult pystr :=
  match s with
  | [] => Invalid
  | c :: t =>
      if N.eqb c 34 then Parsed (rev acc) t
      else if N.eqb c 92 then
        match t with
        | [] => Invalid
        | e :: t1 =>
            if N.eqb e 117 then
              match t1 with
              | h1 :: h2 :: h3 :: h4 :: t2 =>
                  match hex4 h1 h2 h3 h4 with
                  | None => Invalid
                  | Some u =>
                      if is_high_surrogate u then
                        match t2 with
                        | b :: v :: k1 :: k2 :: k3 :: k4 :: t3 =>
                            if N.eqb b 92 && N.eqb v 117 then
                              match hex4 k1 k2 k3 k4 with
                              | None => Invalid
                              | Some u2 =>
                                  if is_low_surrogate u2
                                  then scanstring t3 (join_surrogates u u2 :: acc)
                                  else scanstring t2 (u :: acc)
                              end
                            else scanstring t2 (u :: acc)
                        | _ => scanstring t2 (u :: acc)
                        end
                      else scanstring t2 (u :: acc)
                  end
              | _ => Invalid
              end
            else
              match unescape e with
              | Some ch => scanstring t1 (ch :: acc)
              | None => Invalid
              end
        end
      else if N.ltb c 32 then Invalid
      else scanstring t (c :: acc)
  end.

(** A number literal: an integer part, then a fraction and an exponent
    when they are complete.  An integer becomes an [int], anything with
    a fraction or an exponent a [float]. *)
Definition match_number (s : pystr) : presult pyvalue :=
  let '(sign, s1) :=
    match s with
    | c :: t => if N.eqb c 45 then ([c], t) else ([], s)
    | [] => ([], s)
    end in
  match s1 with
  | [] => Invalid
  | c :: t =>
      let '(intpart, s2) :=
        if between 49 57 c
        then let (ds, r) := Digits.span Digits.is_digit t in (c :: ds, r)
        else if N.eqb c 48 then ([c], t)
        else ([], s1) in
      match intpart with
      | [] => Invalid
      | _ :: _ =>
          let '(frac, s3) :=
            match s2 with
            | d :: f :: r =>
                if N.eqb d 46 && Digits.is_digit f
                then let (fs, r') := Digits.span Digits.is_digit r in
                     (d :: f :: fs, r')
                else ([], s2)
            | _ => ([], s2)
            end in
          let '(expo, s4) :=
            match s3 with
            | e :: r =>
                if N.eqb e 101 || N.eqb e 69 then
                  let '(sg, r1) :=
                    match r with
                    | x :: r' => if N.eqb x 43 || N.eqb x 45 then ([x], r') else ([], r)
                    | [] => ([], r)
                    end in
                  let (ds, r2) := Digits.span Digits.is_digit r1 in
                  match ds with
                  | [] => ([], s3)
                  | _ :: _ => (e :: sg ++ ds, r2)
                  end
                else ([], s3)
            | [] => ([], s3)
            end in
          match frac, expo with
          | [], [] =>
              if Nat.ltb Digits.int_max_str_digits (List.length intpart) then Invalid
              else Parsed (PyInt (match sign with
                                  | [] => Digits.value intpart
                                  | _ :: _ => - Digits.value intpart
                                  end)) s4
          | _, _ => Parsed (PyFloat (sign ++ intpart ++ frac ++ expo)) s4
          end
      end
  end.

(** The scanner proper.  [scan_once] reads one JSON term at the head of
    [s]; [object_pairs] reads the pairs of an object from where a key
    is expected, [array_items] the items of an array from where a term
    is expected; each returns what follows the term it read. *)
Fixpoint scan_once (fuel : nat) (s : pystr) {struct fuel} : presult pyvalue :=
  match fuel with
  | O => OutOfFuel
  | S fuel' =>
      match s with
      | [] => Invalid
      | c :: t =>
          if N.eqb c 34 then
            match scanstring t [] with
            | Parsed text rest => Parsed (PyStr text) rest
            | Invalid => Invalid
            | OutOfFuel => OutOfFuel
            end
          else if N.eqb c 123 then
            match skip_ws t with
            | [] => Invalid
            | c1 :: t1 =>
                if N.eqb c1 125 then Parsed (PyDict []) t1
                else object_pairs fuel' (c1 :: t1) []
            end
          else if N.eqb c 91 then
            match skip_ws t with
            | [] => Invalid
            | c1 :: t1 =>
                if N.eqb c1 93 then Parsed (PyList []) t1
                else array_items fuel' (c1 :: t1) []
            end
          else if startswith s (str "null") then Parsed PyNone (skipn 4 s)
          else if startswith s (str "true") then Parsed (PyBool true) (skipn 4 s)
          else if startswith s (str "false") then Parsed (PyBool false) (skipn 5 s)
          else if startswith s (str "NaN") then Parsed (PyFloat (str "NaN")) (skipn 3 s)
          else if startswith s (str "Infinity")
               then Parsed (PyFloat (str "Infinity")) (skipn 8 s)
          else if startswith s (str "-Infinity")
               then Parsed (PyFloat (str "-Infinity")) (skipn 9 s)
          else match_number s
      end
  end
with object_pairs (fuel : nat) (s : pystr) (acc : pydict) {struct fuel}
  : presult pyvalue :=
  match fuel with
  | O => OutOfFuel
  | S fuel' =>
      match s with
      | [] => Invalid
      | c :: t =>
          if N.eqb c 34 then
            match scanstring t [] with
            | Parsed key r =>
                match skip_ws r with
                | [] => Invalid
                | c2 :: r2 =>
                    if N.eqb c2 58 then
                      match scan_once fuel' (skip_ws r2) with
                      | Parsed v r3 =>
                          let acc' := dict_set acc key v in
                          match skip_ws r3 with
                          | [] => Invalid
                          | c3 :: r4 =>
                              if N.eqb c3 125 then Parsed (PyDict acc') r4
                              else if N.eqb c3 44
                              then object_pairs fuel' (skip_ws r4) acc'
                              else Invalid
                          end
                      | Invalid => Invalid
                      | OutOfFuel => OutOfFuel
                      end
                    else Invalid
                end
            | Invalid => Invalid
            | OutOfFuel => OutOfFuel
            end
          else Invalid
      end
  end
with array_items (fuel : nat) (s : pystr) (acc : list pyvalue) {struct fuel}
  : presult pyvalue :=
  match fuel with
  | O => OutOfFuel
  | S fuel' =>
      match scan_once fuel' s with
      | Parsed v r =>
          match skip_ws r with
          | [] => Invalid
          | c :: r1 =>
              if N.eqb c 93 then Parsed (PyList (rev (v :: acc))) r1
              else if N.eqb c 44 then array_items fuel' (skip_ws r1) (v :: acc)
              else Invalid
          end
      | Invalid => Invalid
      | OutOfFuel => OutOfFuel
      end
  end.

(** The decoder's errors.  Their messages name a position in the
    document; the score relay discards them, so they are left empty. *)
Definition JSONDecodeError : exn := PyExn "JSONDecodeError" [].

(** [json.loads(s)].  The scanner is given more fuel than it can use:
    reading a term takes at most two units for each character of it. *)
Definition loads (s : pystr) : outcome pyvalue :=
  if startswith s [0xFEFF%N] then Raise JSONDecodeError
  else
    match scan_once (S (2 * List.length s)) (skip_ws s) with
    | Parsed v rest =>
        match skip_ws rest with
        | [] => Return v
        | _ :: _ => Raise JSONDecodeError
        end
    | Invalid => Raise JSONDecodeError
    | OutOfFuel => Raise JSONDecodeError
    end.

End Json.

(** [int(s)] on a [str], base ten. *)
Module PyInt.

(** The code points of the digit zero of each non-ASCII decimal script
    in the interpreter's Unicode database (14.0); the nine code points
    after each are its digits one to nine. *)
Definition decimal_zeros : list N :=
  [0x660; 0x6F0; 0x7C0; 0x966; 0x9E6; 0xA66; 0xAE6; 0xB66; 0xBE6; 0xC66;
   0xCE6; 0xD66; 0xDE6; 0xE50; 0xED0; 0xF20; 0x1040; 0x1090; 0x17E0;
   0x1810; 0x1946; 0x19D0; 0x1A80; 0x1A90; 0x1B50; 0x1BB0; 0x1C40;
   0x1C50; 0xA620; 0xA8D0; 0xA900; 0xA9D0; 0xA9F0; 0xAA50; 0xABF0;
   0xFF10; 0x104A0; 0x10D30; 0x11066; 0x110F0; 0x11136; 0x111D0;
   0x112F0; 0x11450; 0x114D0; 0x11650; 0x116C0; 0x11730; 0x118E0;
   0x11950; 0x11C50; 0x11D50; 0x11DA0; 0x16A60; 0x16AC0; 0x16B50;
   0x1D7CE; 0x1D7D8; 0x1D7E2; 0x1D7EC; 0x1D7F6; 0x1E140; 0x1E2F0;
   0x1E950; 0x1FBF0]%N.

(** The decimal value of a non-ASCII digit. *)
Definition decimal (c : char) : option N :=
  match List.find (fun z => between z (z + 9) c) decimal_zeros with
  | Some z => Some (c - z)%N
  | None => None
  end.

(** The conversion's first pass: white space becomes a blank, a decimal
    digit of any script its ASCII digit, any other non-ASCII character a
    question mark (on which the parse below fails). *)
Definition to_ascii (c : char) : char :=
  if N.ltb c 127 then c
  else if isspace c then 32%N
  else match decimal c with
       | Some d => (48 + d)%N
       | None => 63%N
       end.

Definition is_ascii_space (c : char) : bool := between 9 13 c || N.eqb c 32.

Fixpoint skip_spaces (s : pystr) : pystr :=
  match s with
  | c :: s' => if is_ascii_space c then skip_spaces s' else s
  | [] => []
  end.

(** Digits with single underscores between them: the digits read, last
    first in [acc], and what follows them; [None] on a doubled or a
    trailing underscore. *)
Fixpoint scan_digits (after_underscore : bool) (s acc : pystr)
  : option (pystr * pystr) :=
  match s with
  | c :: s' =>
      if Digits.is_digit c then scan_digits false s' (c :: acc)
      else if N.eqb c 95 then
        if after_underscore then None else scan_digits true s' acc
      else if after_underscore then None else Some (rev acc, s)
  | [] => if after_underscore then None else Some (rev acc, [])
  end.

(** The literal is refused with a [ValueError]; its message quotes the
    text and is discarded by the score relay, so it is left empty. *)
Definition ValueError : exn := PyExn "ValueError" [].

Definition int (s : pystr) : outcome Z :=
  let a := skip_spaces (List.map to_ascii s) in
  let '(negative, a) :=
    match a with
    | c :: a' => if N.eqb c 43 then (false, a')
                 else if N.eqb c 45 then (true, a')
                 else (false, a)
    | [] => (false, a)
    end in
  if startswith a [95%N] then Raise ValueError
  else
    match scan_digits false a [] with
    | None => Raise ValueError
    | Some (digits, rest) =>
        match digits, skip_spaces rest with
        | _ :: _, [] =>
            if Nat.ltb Digits.int_max_str_digits (List.length digits)
            then Raise ValueError
            else Return (if negative then - Digits.value digits
                         else Digits.value digits)%Z
        | _, _ => Raise ValueError
        end
    end.

End PyInt.

(** Arithmetic on [float]. *)
Module PyFloat.

(** [float(n)], exact while [|n| < 2^53]. *)
Definition of_int (n : Z) : float :=
  if (n <? 0)%Z then PrimFloat.opp (PrimFloat.of_uint63 (Uint63.of_Z (- n)))
  else PrimFloat.of_uint63 (Uint63.of_Z n).

(** [n * x] for an [int] [n] and a [float] [x]. *)
Definition int_mul (n : Z) (x : float) : float := PrimFloat.mul (of_int n) x.

Definition OverflowError : exn :=
  PyExn "OverflowError" (str "cannot convert float infinity to integer").
Definition NaNError : exn :=
  PyExn "ValueError" (str "cannot convert float NaN to integer").

(** [int(x)]: the integer part, towards zero. *)
Definition to_int (x : float) : outcome Z :=
  match Prim2SF x with
  | S754_zero _ => Return 0%Z
  | S754_finite negative m e =>
      let magnitude :=
        match e with
        | Z0 => Zpos m
        | Zpos p => Z.shiftl (Zpos m) (Zpos p)
        | Zneg p => Z.shiftr (Zpos m) (Zpos p)
        end in
      Return (if negative then - magnitude else magnitude)%Z
  | S754_infinity _ => Raise OverflowError
  | S754_nan => Raise NaNError
  end.

End PyFloat.

(* ===================================================================== *)
(** ** models.py *)
(* ===================================================================== *)

(** [Literal["user", "assistant", "system"]] *)
Inductive Role : Type := user | assistant | system.

Module ChatMessage.
Record t : Type := { role : Role; content : pystr }.
End ChatMessage.

Module ChatRequest.
Record t : Type :=
  { story_id : pystr;
    character_id : pystr;
    messages : list ChatMessage.t;
    system_prompt : pystr }.
End ChatRequest.

Module ScoreRequest.
Record t : Type :=
  { reasoning : pystr;
    solution : pydict;
    is_correct : bool }.
End ScoreRequest.

(** Structured output for reasoning evaluation. *)
Module ReasoningScore.
Record t : Type :=
  { score : Z;
    motive_points : Z;
    method_points : Z;
    logic_points : Z }.
End ReasoningScore.

(** The [dict] the score handler returns, [{"score": ..., "breakdown":
    {...}}]: the shape of [ScoreResponse], with whatever values the
    handler put under the keys. *)
Module Breakdown.
Record t : Type :=
  { score : pyvalue;
    motive_points : pyvalue;
    method_points : pyvalue;
    logic_points : pyvalue }.
End Breakdown.

Module Response.
Record t : Type :=
  { score : pyvalue;
    breakdown : Breakdown.t }.
End Response.

(* ===================================================================== *)
(** ** The completion client *)
(* ===================================================================== *)

(** A message as sent upstream, [{"role": ..., "content": ...}]. *)
Module Message.
Record t : Type := { role : Role; content : pystr }.
End Message.

(** The arguments of a completion request. *)
Module Params.
Record t : Type :=
  { model : pystr;
    messages : list Message.t;
    max_tokens : Z;
    temperature : float }.
End Params.

(** A reply to a schema-constrained request, read as the handler reads
    it: each choice is given by its [message.parsed]. *)
Record ParsedChatCompletion : Type :=
  { parsed_choices : list (option ReasoningScore.t) }.

(** A reply to a plain request: each choice is given by its
    [message.content]. *)
Record ChatCompletion : Type :=
  { choices : list (option pystr) }.

(** One element of a streamed reply: each choice is given by its
    [delta.content]. *)
Record ChatCompletionChunk : Type :=
  { delta_choices : list (option pystr) }.

(** A streamed reply: the chunks it delivers, and the exception that cuts
    it short after them, if any. *)
Record Stream : Type :=
  { chunks : list ChatCompletionChunk;
    failure : option exn }.

(** The client: what each kind of request is answered with. *)
Record OpenAI : Type :=
  { beta_parse : Params.t -> outcome ParsedChatCompletion;
    create : Params.t -> outcome ChatCompletion;
    create_stream : Params.t -> outcome Stream }.

(** A request made to the client. *)
Inductive call : Type :=
| beta_chat_completions_parse (params : Params.t)
| chat_completions_create (params : Params.t)
| chat_completions_create_stream (params : Params.t).

(** A handler's computation: it is given the calls made so far and
    returns or raises, having made some more. *)
Definition io (A : Type) : Type := list call -> outcome A * list call.

#[global] Instance Monad_io : Monad io :=
  {| ret := fun _ a log => (Return a, log);
     bind := fun _ _ m k log =>
               match m log with
               | (Return a, log') => k a log'
               | (Raise e, log') => (Raise e, log')
               end |}.

#[global] Instance Exc_io : MonadExc exn io :=
  {| raise := fun _ e log => (Raise e, log);
     catch := fun _ m handler log =>
                match m log with
                | (Return a, log') => (Return a, log')
                | (Raise e, log') => handler e log'
                end |}.

(** A computation that calls nothing. *)
Definition lift {A : Type} (o : outcome A) : io A := fun log => (o, log).

(** A handler run on its own: its outcome and the calls it made. *)
Definition run {A : Type} (m : io A) : outcome A * list call := m [].

(** [bool(s)] for a value that is a [str] or [None]. *)
Definition truthy (o : option pystr) : bool :=
  match o with
  | Some (_ :: _) => true
  | _ => false
  end.

(** [l.insert(i, x)] for an index from the front. *)
Definition list_insert {A : Type} (l : list A) (i : nat) (x : A) : list A :=
  firstn i l ++ x :: skipn i l.

(** The name of a value's type. *)
Definition type_name (v : pyvalue) : string :=
  match v with
  | PyNone => "NoneType"
  | PyBool _ => "bool"
  | PyInt _ => "int"
  | PyFloat _ => "float"
  | PyStr _ => "str"
  | PyList _ => "list"
  | PyDict _ => "dict"
  end.

(** [v.get(key, default)]: only a [dict] has the method. *)
Definition py_get (v : pyvalue) (key : pystr) (default : pyvalue) : outcome pyvalue :=
  match v with
  | PyDict d => Return (dict_get d key default)
  | _ => Raise (AttributeError (type_name v) "get")
  end.

(** Lines of text, joined by line feeds. *)
Fixpoint lines (l : list pystr) : pystr :=
  match l with
  | [] => []
  | [x] => x
  | x :: l' => x ++ LF ++ lines l'
  end.

Definition quoted (s : pystr) : pystr := DQ ++ s ++ DQ.

(* ===================================================================== *)
(** ** Stand-ins for the surroundings of the handlers *)
(* ===================================================================== *)

Module Fixtures.

(** An environment with no variable set. *)
Definition no_env : pystr -> option pystr := fun _ => None.

(** A printer that shows every value as an ellipsis. *)
Definition ellipsis : pyvalue -> pystr := fun _ => str "...".

Definition unsupported : exn :=
  PyExn "BadRequestError" (str "response_format is not supported by this model").
Definition unreachable : exn :=
  PyExn "APIConnectionError" (str "Connection error.").

(** A provider that refuses schema-constrained requests and answers a
    plain request with one choice of the given content. *)
Definition unstructured_client (content : option pystr) : OpenAI :=
  {| beta_parse := fun _ => Raise unsupported;
     create := fun _ => Return {| choices := [content] |};
     create_stream := fun _ => Raise unreachable |}.

(** A provider that honours the schema. *)
Definition structured_client (result : ReasoningScore.t) : OpenAI :=
  {| beta_parse := fun _ => Return {| parsed_choices := [Some result] |};
     create := fun _ => Raise unreachable;
     create_stream := fun _ => Raise unreachable |}.

(** A provider that cannot be reached. *)
Definition unreachable_client : OpenAI :=
  {| beta_parse := fun _ => Raise unreachable;
     create := fun _ => Raise unreachable;
     create_stream := fun _ => Raise unreachable |}.

(** A provider that answers a streaming request with the given stream. *)
Definition streaming_client (stream : Stream) : OpenAI :=
  {| beta_parse := fun _ => Raise unsupported;
     create := fun _ => Raise unsupported;
     create_stream := fun _ => Return stream |}.

(** A chunk that carries one text fragment. *)
Definition text_chunk (text : pystr) : ChatCompletionChunk :=
  {| delta_choices := [Some text] |}.

(** A stream that delivers the given fragments and closes. *)
Definition stream_of (fragments : list pystr) : Stream :=
  {| chunks := List.map text_chunk fragments; failure := None |}.

Definition hello_world : list pystr := [str "Hello"; str ", "; str "world"].

(** A correct accusation with reasoning long enough to be scored by the
    model, and a solution that names nothing. *)
Definition accusation : ScoreRequest.t :=
  {| ScoreRequest.reasoning := str "The gardener switched the glasses after dinner.";
     ScoreRequest.solution := [];
     ScoreRequest.is_correct := true |}.

Definition wrong_accusation : ScoreRequest.t :=
  {| ScoreRequest.reasoning := str "The gardener switched the glasses after dinner.";
     ScoreRequest.solution := [];
     ScoreRequest.is_correct := false |}.

Definition terse_accusation : ScoreRequest.t :=
  {| ScoreRequest.reasoning := str "The gardener.";
     ScoreRequest.solution := [(str "culprit", PyStr (str "gardener"))];
     ScoreRequest.is_correct := true |}.

Definition interview : ChatRequest.t :=
  {| ChatRequest.story_id := str "manor";
     ChatRequest.character_id := str "butler";
     ChatRequest.messages :=
       [ {| ChatMessage.role := user; ChatMessage.content := str "Where were you at nine?" |};
         {| ChatMessage.role := assistant; ChatMessage.content := str "In the pantry." |};
         {| ChatMessage.role := user; ChatMessage.content := str "Alone?" |} ];
     ChatRequest.system_prompt := str "You are the butler." |}.

Definition silent_interview : ChatRequest.t :=
  {| ChatRequest.story_id := str "manor";
     ChatRequest.character_id := str "butler";
     ChatRequest.messages := [];
     ChatRequest.system_prompt := str "You are the butler." |}.

(** Replies of the plain request. *)
Definition full_object_text : pystr :=
  str "prefix {" ++ quoted (str "score") ++ str ": 77, "
    ++ quoted (str "motive_points") ++ str ": 20, "
    ++ quoted (str "method_points") ++ str ": 22, "
    ++ quoted (str "logic_points") ++ str ": 35} suffix".

Definition partial_object_text : pystr :=
  str "{" ++ quoted (str "score") ++ str ": 60}".

Definition worded_score_text : pystr :=
  str "{" ++ quoted (str "score") ++ str ": " ++ quoted (str "high") ++ str "}".

Definition bare_number_text : pystr := str "  88  ".

Definition refusal_text : pystr := str "I cannot compute a score".

(** A correct accusation whose reasoning has exactly 20 characters. *)
Definition twenty_characters : ScoreRequest.t :=
  {| ScoreRequest.reasoning := str "It was the gardener.";
     ScoreRequest.solution := [];
     ScoreRequest.is_correct := true |}.

(** A result beyond the ranges the schema's comments give. *)
Definition generous_result : ReasoningScore.t :=
  {| ReasoningScore.score := 150;
     ReasoningScore.motive_points := 50;
     ReasoningScore.method_points := 50;
     ReasoningScore.logic_points := 50 |}.

(** A stream with a chunk that has no choice between two fragments. *)
Definition cut_stream : Stream :=
  {| chunks := [ text_chunk (str "Hello"); {| delta_choices := [] |}; text_chunk (str "world") ];
     failure := None |}.

(** A stream whose connection drops after the first fragment. *)
Definition interrupted_stream : Stream :=
  {| chunks := [ text_chunk (str "Hello") ]; failure := Some unreachable |}.

End Fixtures.

Section Backend.

(** The process environment, [os.getenv]. *)
Variable getenv : pystr -> option pystr.

(** [os.getenv(name, default)] *)
Definition getenv_default (name default : string) : pystr :=
  match getenv (str name) with
  | Some v => v
  | None => str default
  end.

(** [str(v)] for the values of a decoded JSON document.  How the
    interpreter prints numbers and containers is left open: the handlers
    only paste the text into the prompt. *)
Variable py_str : pyvalue -> pystr.

(** A value inside an f-string: a [str] is pasted as it is. *)
Definition format_value (v : pyvalue) : pystr :=
  match v with
  | PyStr s => s
  | _ => py_str v
  end.

(** The module-level client of both routers. *)
Variable client : OpenAI.

Definition call_parse (params : Params.t) : io ParsedChatCompletion :=
  fun log => (beta_parse client params, log ++ [beta_chat_completions_parse params]).

Definition call_create (params : Params.t) : io ChatCompletion :=
  fun log => (create client params, log ++ [chat_completions_create params]).

Definition call_create_stream (params : Params.t) : io Stream :=
  fun log => (create_stream client params, log ++ [chat_completions_create_stream params]).

(* =================================================================== *)
(** ** routers/score.py *)
(* =================================================================== *)

Definition SCORING_MODEL : pystr :=
  getenv_default "OPENROUTER_SCORING_MODEL" "openai/gpt-4o-mini".

Definition scoring_rubric : list pystr :=
  [ str "You are evaluating a detective's reasoning for solving a mystery.";
    [];
    str "Score the reasoning from 0-100 based on:";
    str "1. Does it identify the correct motive? (30 points max)";
    str "2. Does it explain the method? (30 points max)";
    str "3. Is the logic sound and well-explained? (40 points max)";
    [] ].

(** The system message of the schema-constrained request. *)
Definition structured_system_prompt : pystr :=
  lines (scoring_rubric ++ [ str "Provide a structured breakdown of the score." ]).

(** The system message of the plain request. *)
Definition json_system_prompt : pystr :=
  lines (scoring_rubric ++
         [ str "Respond with ONLY a JSON object in this format:";
           str "{" ++ quoted (str "score") ++ str ": 85, "
             ++ quoted (str "motive_points") ++ str ": 25, "
             ++ quoted (str "method_points") ++ str ": 28, "
             ++ quoted (str "logic_points") ++ str ": 32}" ]).

(** [request.solution.get(key, 'Unknown')], as the f-string prints it. *)
Definition solution_field (request : ScoreRequest.t) (key : string) : pystr :=
  format_value (dict_get (ScoreRequest.solution request) (str key) (PyStr (str "Unknown"))).

(** The prompt for scoring (lines 55-63).  [dict.get] with a default and
    the printing of a decoded value raise nothing, so the prompt is a
    total function of the request. *)
Definition build_prompt (request : ScoreRequest.t) : pystr :=
  lines [ str "THE CORRECT SOLUTION:";
          str "- Culprit: " ++ solution_field request "culprit";
          str "- Method: " ++ solution_field request "method";
          str "- Motive: " ++ solution_field request "motive";
          [];
          str "THE DETECTIVE'S REASONING:";
          quoted (ScoreRequest.reasoning request);
          [];
          str "Evaluate the reasoning and provide a structured score." ].

Definition scoring_params (system_prompt prompt : pystr) : Params.t :=
  {| Params.model := SCORING_MODEL;
     Params.messages :=
       [ {| Message.role := system; Message.content := system_prompt |};
         {| Message.role := user; Message.content := prompt |} ];
     Params.max_tokens := 100;
     Params.temperature := 0.1 |}.

(** A response whose four fields are the given integers. *)
Definition fixed_response (score motive method logic : Z) : Response.t :=
  {| Response.score := PyInt score;
     Response.breakdown :=
       {| Breakdown.score := PyInt score;
          Breakdown.motive_points := PyInt motive;
          Breakdown.method_points := PyInt method;
          Breakdown.logic_points := PyInt logic |} |}.

(** Lines 69-99: the schema-constrained request and its parsed result. *)
Definition structured_score (prompt : pystr) : io Response.t :=
  completion <- call_parse (scoring_params structured_system_prompt prompt) ;;
  parsed <- lift (index0 (parsed_choices completion)) ;;
  result <- lift (attr_of parsed "score") ;;
  ret {| Response.score := PyInt (ReasoningScore.score result);
         Response.breakdown :=
           {| Breakdown.score := PyInt (ReasoningScore.score result);
              Breakdown.motive_points := PyInt (ReasoningScore.motive_points result);
              Breakdown.method_points := PyInt (ReasoningScore.method_points result);
              Breakdown.logic_points := PyInt (ReasoningScore.logic_points result) |} |}.

(** Lines 126-142: the JSON object found in the reply, if the [try]
    block returns one; [None] when the block falls through or its
    exception is swallowed. *)
Definition json_score (response_text : option pystr) : outcome (option Response.t) :=
  catch
    (text <- attr_of response_text "find" ;;
     let start := find text (str "{") in
     let end_ := (rfind text (str "}") + 1)%Z in
     if (0 <=? start)%Z && (start <? end_)%Z then
       parsed <- Json.loads (slice text start end_) ;;
       score <- py_get parsed (str "score") (PyInt 50) ;;
       score' <- py_get parsed (str "score") (PyInt 50) ;;
       motive <- py_get parsed (str "motive_points") (PyInt 15) ;;
       method <- py_get parsed (str "method_points") (PyInt 15) ;;
       logic <- py_get parsed (str "logic_points") (PyInt 20) ;;
       ret (Some {| Response.score := score;
                    Response.breakdown :=
                      {| Breakdown.score := score';
                         Breakdown.motive_points := motive;
                         Breakdown.method_points := method;
                         Breakdown.logic_points := logic |} |})
     else ret None)
    (fun _ => ret None).

(** Lines 146-167: the reply read as a bare number, or the fixed
    defaults when it is not one. *)
Definition number_score (score_text : pystr) : outcome Response.t :=
  catch
    (score <- PyInt.int score_text ;;
     let score := Z.max 0 (Z.min 100 score) in
     motive <- PyFloat.to_int (PyFloat.int_mul score 0.3) ;;
     method <- PyFloat.to_int (PyFloat.int_mul score 0.3) ;;
     logic <- PyFloat.to_int (PyFloat.int_mul score 0.4) ;;
     ret (fixed_response score motive method logic))
    (fun _ => ret (fixed_response 50 15 15 20)).

(** Lines 102-167: the plain request and the parsing of its reply. *)
Definition fallback_score (prompt : pystr) : io Response.t :=
  completion <- call_create (scoring_params json_system_prompt prompt) ;;
  response_text <- lift (index0 (choices completion)) ;;
  found <- lift (json_score response_text) ;;
  match found with
  | Some response => ret response
  | None =>
      content <- lift (index0 (choices completion)) ;;
      score_text <- lift (text <- attr_of content "strip" ;; ret (strip text)) ;;
      lift (number_score score_text)
  end.

(** Lines 53-167: the body of the outer [try]. *)
Definition model_score (request : ScoreRequest.t) : io Response.t :=
  let prompt := build_prompt request in
  catch (structured_score prompt) (fun _ => fallback_score prompt).

(** [not request.reasoning or len(request.reasoning) < 20] *)
Definition too_short (reasoning : pystr) : bool :=
  negb (truthy (Some reasoning)) || (len reasoning <? 20)%Z.

(** [POST /score] *)
Definition score_reasoning (request : ScoreRequest.t) : io Response.t :=
  if negb (ScoreRequest.is_correct request) then ret (fixed_response 0 0 0 0)
  else if too_short (ScoreRequest.reasoning request) then ret (fixed_response 10 3 3 4)
  else
    catch (model_score request)
      (fun e => raise (HTTPException 500 (str "Error scoring reasoning: " ++ exn_str e))).

(* =================================================================== *)
(** ** routers/chat.py *)
(* =================================================================== *)

Definition DEFAULT_MODEL : pystr :=
  getenv_default "OPENROUTER_MODEL" "anthropic/claude-3.5-sonnet".

(** What the caller of a streaming response observes: the fragments
    yielded, in order, and the exception that ended the body, if any. *)
Record Body : Type :=
  { yielded : list pystr;
    ended_by : option exn }.

(** Lines 53-58: the generator, run over the chunks the stream
    delivers. *)
Fixpoint generate_from (chunks : list ChatCompletionChunk) (failure : option exn) : Body :=
  match chunks with
  | [] => {| yielded := []; ended_by := failure |}
  | chunk :: rest =>
      match index0 (delta_choices chunk) with
      | Raise e => {| yielded := []; ended_by := Some e |}
      | Return content =>
          if truthy content then
            match content with
            | Some text =>
                let later := generate_from rest failure in
                {| yielded := text :: yielded later; ended_by := ended_by later |}
            | None => generate_from rest failure
            end
          else generate_from rest failure
      end
  end.

Definition generate (stream : Stream) : Body :=
  generate_from (chunks stream) (failure stream).

Record StreamingResponse : Type :=
  { body : Body;
    media_type : pystr }.

(** Lines 36-42: the request's messages as dictionaries, the system
    prompt inserted in front. *)
Definition upstream_messages (request : ChatRequest.t) : list Message.t :=
  let messages :=
    List.map (fun msg => {| Message.role := ChatMessage.role msg;
                            Message.content := ChatMessage.content msg |})
             (ChatRequest.messages request) in
  list_insert messages 0
    {| Message.role := system;
       Message.content := ChatRequest.system_prompt request |}.

Definition chat_params (request : ChatRequest.t) : Params.t :=
  {| Params.model := DEFAULT_MODEL;
     Params.messages := upstream_messages request;
     Params.max_tokens := 300;
     Params.temperature := 0.8 |}.

(** [POST /chat] *)
Definition chat (request : ChatRequest.t) : io StreamingResponse :=
  catch
    (stream <- call_create_stream (chat_params request) ;;
     ret {| body := generate stream; media_type := str "text/plain" |})
    (fun e => raise (HTTPException 500 (exn_str e))).

(* =================================================================== *)
(** ** What happens upstream, as the properties below name it *)
(* =================================================================== *)

(** The request passes both short-circuits. *)
Definition scored_by_model (request : ScoreRequest.t) : Prop :=
  ScoreRequest.is_correct request = true
  /\ too_short (ScoreRequest.reasoning request) = false.

(** The schema-constrained request gives no score: the call raises, or
    its reply has no choice, or no parsed result. *)
Definition structured_failed (request : ScoreRequest.t) : Prop :=
  exists e, fst (run (structured_score (build_prompt request))) = Raise e.

(** The plain request is answered, and the first choice of the reply has
    this message content. *)
Definition fallback_content (request : ScoreRequest.t) (content : option pystr) : Prop :=
  exists rest,
    create client (scoring_params json_system_prompt (build_prompt request))
    = Return {| choices := content :: rest |}.

(** The request is scored from the text of the plain reply. *)
Definition falls_back_on (request : ScoreRequest.t) (text : pystr) : Prop :=
  scored_by_model request
  /\ structured_failed request
  /\ fallback_content request (Some text).

(** Lines 124-167 on a reply that carries a text: the JSON object found
    in it, else the text as a bare number, else the defaults. *)
Definition reply_score (text : pystr) : outcome Response.t :=
  found <- json_score (Some text) ;;
  match found with
  | Some response => ret response
  | None => number_score (strip text)
  end.

(** All four fields of the response are integers. *)
Definition all_integers (response : Response.t) : Prop :=
  exists score motive method logic : Z,
    response
    = {| Response.score := PyInt score;
         Response.breakdown :=
           {| Breakdown.score := PyInt score;
              Breakdown.motive_points := PyInt motive;
              Breakdown.method_points := PyInt method;
              Breakdown.logic_points := PyInt logic |} |}.

(** The value is a number, an [int] or a [float]. *)
Definition is_number (v : pyvalue) : bool :=
  match v with
  | PyInt _ | PyFloat _ => true
  | _ => false
  end.

(** The fragments a run of chunks carries: the content of the first
    choice of each, where it has one. *)
Definition fragments (chunks : list ChatCompletionChunk) : list pystr :=
  flat_map (fun chunk => match delta_choices chunk with
                         | Some text :: _ => [text]
                         | _ => []
                         end) chunks.

Definition has_choice (chunk : ChatCompletionChunk) : bool :=
  match delta_choices chunk with
  | [] => false
  | _ :: _ => true
  end.

(** The chunks the generator takes from the stream: those before the
    first one without a choice. *)
Fixpoint consumed (chunks : list ChatCompletionChunk) : list ChatCompletionChunk :=
  match chunks with
  | chunk :: rest => if has_choice chunk then chunk :: consumed rest else []
  | [] => []
  end.

Definition nonempty (text : pystr) : bool :=
  match text with
  | [] => false
  | _ :: _ => true
  end.

(** The two requests the score relay can make, in order. *)
Definition structured_call (request : ScoreRequest.t) : call :=
  beta_chat_completions_parse (scoring_params structured_system_prompt (build_prompt request)).
Definition fallback_call (request : ScoreRequest.t) : call :=
  chat_completions_create (scoring_params json_system_prompt (build_prompt request)).

(** Reading a term neither runs out of fuel nor leaves more than it was
    given: what follows the term is shorter than what it was read from. *)
Definition progress (result : Json.presult pyvalue) (s : pystr) : Prop :=
  result <> Json.OutOfFuel
  /\ forall v rest, result = Json.Parsed v rest -> (List.length rest < List.length s)%nat.

(** Lines 132-140: the response read off a decoded object. *)
Definition object_score (d : pydict) : Response.t :=
  {| Response.score := dict_get d (str "score") (PyInt 50);
     Response.breakdown :=
       {| Breakdown.score := dict_get d (str "score") (PyInt 50);
          Breakdown.motive_points := dict_get d (str "motive_points") (PyInt 15);
          Breakdown.method_points := dict_get d (str "method_points") (PyInt 15);
          Breakdown.logic_points := dict_get d (str "logic_points") (PyInt 20) |} |}.

(** [max(0, min(100, n))], the clamp of line 148. *)
Definition clamp (n : Z) : Z := Z.max 0 (Z.min 100 n).

(** Whether the two float products of lines 153-155, truncated, are the
    exact three and four tenths of [n], rounded down. *)
Definition tenths_exact (n : nat) : bool :=
  let s := Z.of_nat n in
  match PyFloat.to_int (PyFloat.int_mul s 0.3), PyFloat.to_int (PyFloat.int_mul s 0.4) with
  | Return a, Return b => (a =? s * 3 / 10)%Z && (b =? s * 4 / 10)%Z
  | _, _ => false
  end.

(* =================================================================== *)
(** ** Module-level configuration, and main.py *)
(* =================================================================== *)

(** [a or b] for values that are a [str] or [None]. *)
Definition py_or (a b : option pystr) : option pystr :=
  if truthy a then a else b.

(** The [api_key] argument both routers pass to the constructor of
    their client (score.py 17, chat.py 20):
    [os.getenv("LLM_API_KEY") or os.getenv("OPENROUTER_API_KEY")].  What
    the client library does with an argument that is [None] is the
    library's, not the repository's. *)
Definition api_key : option pystr :=
  py_or (getenv (str "LLM_API_KEY")) (getenv (str "OPENROUTER_API_KEY")).

Definition base_url : pystr := str "https://openrouter.ai/api/v1".

(** The [default_headers] argument of the same constructor. *)
Definition default_headers : list (pystr * pystr) :=
  [ (str "HTTP-Referer", getenv_default "OPENROUTER_REFERER" "https://localhost:3000");
    (str "X-Title", getenv_default "OPENROUTER_TITLE" "Final Cut Game") ].

(** [GET /] *)
Definition root : pydict :=
  [ (str "message", PyStr (str "Final Cut Game AI Backend"));
    (str "status", PyStr (str "running")) ].

(** [GET /health] *)
Definition health : pydict :=
  [ (str "status", PyStr (str "healthy")) ].

(* =================================================================== *)
(** ** Further names for what happens upstream *)
(* =================================================================== *)

(** The schema-constrained request gives no result: its call raises, or
    the reply has no choice, or the first choice has no parsed result. *)
Definition no_structured_result (request : ScoreRequest.t) : Prop :=
  let reply :=
    beta_parse client (scoring_params structured_system_prompt (build_prompt request)) in
  (exists e, reply = Raise e)
  \/ (exists completion, reply = Return completion /\ parsed_choices completion = [])
  \/ (exists completion rest,
         reply = Return completion /\ parsed_choices completion = None :: rest).

(** The plain request gives no text, and the exception that comes of it:
    its call raises, or the reply has no choice (line 124), or the first
    choice has no text (line 145). *)
Definition plain_failure (request : ScoreRequest.t) (cause : exn) : Prop :=
  let reply :=
    create client (scoring_params json_system_prompt (build_prompt request)) in
  reply = Raise cause
  \/ (exists completion,
         reply = Return completion /\ choices completion = [] /\ cause = IndexError)
  \/ (exists completion rest,
         reply = Return completion /\ choices completion = None :: rest
         /\ cause = AttributeError "NoneType" "strip").

(** The text has no occurrence of the character. *)
Definition lacks (c : char) (s : pystr) : bool :=
  forallb (fun x => negb (N.eqb x c)) s.

(** A chunk cut down to its first choice. *)
Definition first_choice_only (chunk : ChatCompletionChunk) : ChatCompletionChunk :=
  {| delta_choices := firstn 1 (delta_choices chunk) |}.

(** A natural number as JSON writes it: ASCII digits, at most 4300 of
    them, with no leading zero unless it is the single digit zero. *)
Definition is_json_natural (digits : pystr) : bool :=
  match digits with
  | [] => false
  | d :: more =>
      forallb Digits.is_digit digits
      && (negb (N.eqb d 48) || match more with [] => true | _ :: _ => false end)
      && Nat.leb (List.length digits) Digits.int_max_str_digits
  end.

(** A character that can follow a number inside an object: a comma or a
    closing brace. *)
Definition ends_number (c : char) : bool := N.eqb c 44 || N.eqb c 125.

(** A character that a string literal holds as it stands. *)
Definition plain_char (c : char) : bool :=
  negb (N.eqb c 34) && negb (N.eqb c 92) && negb (N.ltb c 32).

(** What stands between the braces of the object that the plain
    request's system prompt shows (line 115), for the given numbers. *)
Definition score_object_body (score motive method logic : pystr) : pystr :=
  quoted (str "score") ++ str ": " ++ score ++ str ", "
    ++ quoted (str "motive_points") ++ str ": " ++ motive ++ str ", "
    ++ quoted (str "method_points") ++ str ": " ++ method ++ str ", "
    ++ quoted (str "logic_points") ++ str ": " ++ logic.

(** The object itself. *)
Definition score_object_text (score motive method logic : pystr) : pystr :=
  str "{" ++ score_object_body score motive method logic ++ str "}".

(* =================================================================== *)
(** ** The JSON scanner terminates within its fuel *)
(* =================================================================== *)

Lemma skip_ws_length (s : pystr) : (List.length (Json.skip_ws s) <= List.length s)%nat.
Proof.
  induction s as [ | c s IH]; simpl; [ lia | ].
  destruct (Json.is_whitespace c); simpl; lia.
Qed.

Lemma span_length (p : char -> bool) (s : pystr) :
  (List.length (snd (Digits.span p s)) <= List.length s)%nat.
Proof.
  induction s as [ | c s IH]; simpl; [ lia | ].
  destruct (p c); simpl; [ | lia ].
  destruct (Digits.span p s); simpl in *. lia.
Qed.

(** A string literal is read without fuel, and its closing quote is consumed. *)
Lemma scanstring_length (n : nat) :
  forall s acc text rest,
    (List.length s <= n)%nat ->
    Json.scanstring s acc = Json.Parsed text rest ->
    (List.length rest < List.length s)%nat.
Proof.
  induction n as [ | n IH]; intros s acc text rest Hn H.
  - destruct s; [ discriminate | simpl in Hn; lia ].
  - destruct s as [ | c t ]; [ discriminate | ].
    simpl in H, Hn.
    repeat match type of H with
           | context [match ?x with _ => _ end] => destruct x eqn:?; try discriminate H
           end;
      try (injection H as _ <-; simpl; lia);
      try (apply IH in H; simpl in *; lia).
Qed.

Lemma scanstring_fuel (n : nat) :
  forall s acc, (List.length s <= n)%nat -> Json.scanstring s acc <> Json.OutOfFuel.
Proof.
  induction n as [ | n IH]; intros s acc Hn.
  - destruct s; [ discriminate | simpl in Hn; lia ].
  - destruct s as [ | c t ]; [ discriminate | ].
    simpl in *.
    repeat match goal with
           | |- context [match ?x with _ => _ end] => destruct x eqn:?; try discriminate
           end;
      try (apply IH; simpl in *; lia).
Qed.

Ltac break_matches :=
  repeat match goal with
         | E : (_, _) = (_, _) |- _ => inversion E; subst; clear E
         | E : Digits.span ?p ?s = (_, _) |- _ =>
             let B := fresh "Hspan" in
             pose proof (span_length p s) as B; rewrite E in B; simpl in B; clear E
         | H : context [match ?x with _ => _ end] |- _ =>
             destruct x eqn:?; simpl in *; try discriminate
         end.

Lemma match_number_length (s : pystr) (v : pyvalue) (rest : pystr) :
  Json.match_number s = Json.Parsed v rest -> (List.length rest < List.length s)%nat.
Proof.
  unfold Json.match_number. intros H.
  break_matches; injection H as _ <-; simpl in *; lia.
Qed.

Lemma match_number_fuel (s : pystr) : Json.match_number s <> Json.OutOfFuel.
Proof.
  unfold Json.match_number.
  repeat match goal with
         | |- context [match ?x with _ => _ end] => destruct x; try discriminate
         end.
Qed.

Lemma literal_progress (v : pyvalue) (n : nat) (c : char) (t : pystr) :
  (0 < n)%nat -> progress (Json.Parsed v (skipn n (c :: t))) (c :: t).
Proof.
  intros Hn. split; [ discriminate | ]. intros v' rest H.
  assert (Hrest : rest = skipn n (c :: t)) by congruence.
  rewrite Hrest, length_skipn.
  change (List.length (c :: t)) with (S (List.length t)). lia.
Qed.

Lemma scanner_progress (fuel : nat) :
  (forall s, (2 * List.length s < fuel)%nat -> progress (Json.scan_once fuel s) s)
  /\ (forall s acc, (2 * List.length s + 1 < fuel)%nat -> progress (Json.object_pairs fuel s acc) s)
  /\ (forall s acc, (2 * List.length s + 1 < fuel)%nat -> progress (Json.array_items fuel s acc) s).
Proof.
  induction fuel as [ | fuel [IHscan [IHobj IHarr]]].
  - repeat split; intros; lia.
  - split; [ | split ].
    + intros [ | c t ] Hfuel; [ split; [ discriminate | intros; discriminate ] | ].
      simpl in Hfuel. cbn [Json.scan_once].
      destruct (N.eqb c 34).
      { destruct (Json.scanstring t []) as [text rest | | ] eqn:Hstring.
        - split; [ discriminate | ]. intros v r H. injection H as _ <-.
          apply (@scanstring_length (List.length t)) in Hstring; simpl; lia.
        - split; [ discriminate | intros; discriminate ].
        - exfalso. exact (@scanstring_fuel (List.length t) t [] (le_n _) Hstring). }
      destruct (N.eqb c 123).
      { pose proof (skip_ws_length t) as Hws.
        destruct (Json.skip_ws t) as [ | c1 t1 ]; [ split; [ discriminate | intros; discriminate ] | ].
        simpl in Hws.
        destruct (N.eqb c1 125).
        - split; [ discriminate | ]. intros v r H. injection H as _ <-. simpl. lia.
        - destruct (IHobj (c1 :: t1) [] ltac:(simpl; lia)) as [Hfuel' Hrest].
          split; [ exact Hfuel' | ]. intros v r H. apply Hrest in H. simpl in *. lia. }
      destruct (N.eqb c 91).
      { pose proof (skip_ws_length t) as Hws.
        destruct (Json.skip_ws t) as [ | c1 t1 ]; [ split; [ discriminate | intros; discriminate ] | ].
        simpl in Hws.
        destruct (N.eqb c1 93).
        - split; [ discriminate | ]. intros v r H. injection H as _ <-. simpl. lia.
        - destruct (IHarr (c1 :: t1) [] ltac:(simpl; lia)) as [Hfuel' Hrest].
          split; [ exact Hfuel' | ]. intros v r H. apply Hrest in H. simpl in *. lia. }
      repeat match goal with
             | |- progress (if ?b then _ else _) _ => destruct b
             end;
        try (apply literal_progress; lia).
      split; [ apply match_number_fuel | ]. intros v r H.
      apply match_number_length in H. exact H.
    + intros [ | c t ] acc Hfuel; [ split; [ discriminate | intros; discriminate ] | ].
      simpl in Hfuel. simpl.
      destruct (N.eqb c 34); [ | split; [ discriminate | intros; discriminate ] ].
      destruct (Json.scanstring t []) as [key r | | ] eqn:Hstring;
        [ | split; [ discriminate | intros; discriminate ]
          | exfalso; exact (@scanstring_fuel (List.length t) t [] (le_n _) Hstring) ].
      apply (@scanstring_length (List.length t)) in Hstring; [ | lia ].
      pose proof (skip_ws_length r) as Hws.
      destruct (Json.skip_ws r) as [ | c2 r2 ]; [ split; [ discriminate | intros; discriminate ] | ].
      simpl in Hws.
      destruct (N.eqb c2 58); [ | split; [ discriminate | intros; discriminate ] ].
      pose proof (skip_ws_length r2) as Hws2.
      destruct (IHscan (Json.skip_ws r2) ltac:(lia)) as [Hfuel' Hrest].
      destruct (Json.scan_once fuel (Json.skip_ws r2)) as [v r3 | | ];
        [ | split; [ discriminate | intros; discriminate ] | contradiction ].
      specialize (Hrest v r3 eq_refl).
      pose proof (skip_ws_length r3) as Hws3.
      destruct (Json.skip_ws r3) as [ | c3 r4 ]; [ split; [ discriminate | intros; discriminate ] | ].
      simpl in Hws3.
      destruct (N.eqb c3 125).
      { split; [ discriminate | ]. intros v' r' H. injection H as _ <-. simpl. lia. }
      destruct (N.eqb c3 44); [ | split; [ discriminate | intros; discriminate ] ].
      pose proof (skip_ws_length r4) as Hws4.
      destruct (IHobj (Json.skip_ws r4) (dict_set acc key v) ltac:(lia)) as [Hfuel'' Hrest'].
      split; [ exact Hfuel'' | ]. intros v' r' H. apply Hrest' in H. simpl. lia.
    + intros s acc Hfuel. simpl.
      destruct (IHscan s ltac:(lia)) as [Hfuel' Hrest].
      destruct (Json.scan_once fuel s) as [v r | | ];
        [ | split; [ discriminate | intros; discriminate ] | contradiction ].
      specialize (Hrest v r eq_refl).
      pose proof (skip_ws_length r) as Hws.
      destruct (Json.skip_ws r) as [ | c r1 ]; [ split; [ discriminate | intros; discriminate ] | ].
      simpl in Hws.
      destruct (N.eqb c 93).
      { split; [ discriminate | ]. intros v' r' H. injection H as _ <-. lia. }
      destruct (N.eqb c 44); [ | split; [ discriminate | intros; discriminate ] ].
      pose proof (skip_ws_length r1) as Hws1.
      destruct (IHarr (Json.skip_ws r1) (v :: acc) ltac:(lia)) as [Hfuel'' Hrest'].
      split; [ exact Hfuel'' | ]. intros v' r' H. apply Hrest' in H. lia.
Qed.

(** [json.loads] never runs its scanner out of fuel. *)
Lemma loads_fuel_suffices (s : pystr) :
  Json.scan_once (S (2 * List.length s)) (Json.skip_ws s) <> Json.OutOfFuel.
Proof.
  pose proof (skip_ws_length s) as Hws.
  apply (proj1 (scanner_progress (S (2 * List.length s)))). lia.
Qed.

(* =================================================================== *)
(** ** Running the handlers *)
(* =================================================================== *)

(** The schema-constrained attempt makes its one call whatever came
    before, and its outcome does not depend on the calls made so far. *)
Lemma structured_score_run (prompt : pystr) (log : list call) :
  structured_score prompt log
  = (fst (run (structured_score prompt)),
     log ++ [beta_chat_completions_parse (scoring_params structured_system_prompt prompt)]).
Proof.
  unfold structured_score, run, call_parse, lift. simpl.
  destruct (beta_parse client _) as [completion | e]; [ | reflexivity ].
  destruct (parsed_choices completion) as [ | [result | ] rest ]; reflexivity.
Qed.


(** The plain request, answered with a text, is scored from that text. *)
Lemma fallback_score_run (request : ScoreRequest.t) (text : pystr) (log : list call) :
  fallback_content request (Some text) ->
  fallback_score (build_prompt request) log
  = (reply_score text, log ++ [fallback_call request]).
Proof.
  intros [rest Hreply].
  unfold fallback_score, reply_score, call_create, fallback_call, lift. simpl.
  rewrite Hreply. simpl.
  destruct (json_score (Some text)) as [[response | ] | e]; reflexivity.
Qed.

(** The [try] block around the JSON extraction swallows every exception. *)
Lemma json_score_returns (response_text : option pystr) :
  exists found, json_score response_text = Return found.
Proof.
  unfold json_score. simpl.
  match goal with
  | |- exists _, match ?body with _ => _ end = _ => destruct body as [found | e]
  end; eauto.
Qed.

(** So does the one around the integer parse. *)
Lemma number_score_returns (score_text : pystr) :
  exists response, number_score score_text = Return response.
Proof.
  unfold number_score. simpl.
  match goal with
  | |- exists _, match ?body with _ => _ end = _ => destruct body as [response | e]
  end; eauto.
Qed.

Lemma reply_score_returns (text : pystr) :
  exists response, reply_score text = Return response.
Proof.
  unfold reply_score.
  destruct (json_score_returns (Some text)) as [[response | ] ->]; simpl; eauto.
  apply number_score_returns.
Qed.

(** A request scored from the text of the plain reply: its outcome, and
    the two calls it makes. *)
Lemma score_reasoning_falls_back (request : ScoreRequest.t) (text : pystr) :
  falls_back_on request text ->
  run (score_reasoning request)
  = (reply_score text, [structured_call request; fallback_call request]).
Proof.
  intros [[Hcorrect Hlong] [[e Hfailed] Hreply]].
  unfold score_reasoning, run. rewrite Hcorrect, Hlong. simpl.
  unfold model_score. simpl.
  rewrite structured_score_run, Hfailed.
  rewrite (fallback_score_run _ Hreply).
  destruct (reply_score_returns text) as [response ->]. reflexivity.
Qed.


(* =================================================================== *)
(** ** The bare-number tier *)
(* =================================================================== *)

Lemma tenths_table : forallb tenths_exact (seq 0 101) = true.
Proof. vm_compute. reflexivity. Qed.

(** On a clamped score the float products, truncated, are the exact
    tenths: binary64 rounding never crosses an integer there. *)
Lemma to_int_tenths (s : Z) :
  (0 <= s <= 100)%Z ->
  PyFloat.to_int (PyFloat.int_mul s 0.3) = Return (s * 3 / 10)%Z
  /\ PyFloat.to_int (PyFloat.int_mul s 0.4) = Return (s * 4 / 10)%Z.
Proof.
  intros Hs.
  assert (Hin : In (Z.to_nat s) (seq 0 101)) by (apply in_seq; lia).
  pose proof (proj1 (forallb_forall _ _) tenths_table _ Hin) as Hok.
  unfold tenths_exact in Hok. rewrite Z2Nat.id in Hok by lia.
  destruct (PyFloat.to_int (PyFloat.int_mul s 0.3)) as [a | ]; [ | discriminate ].
  destruct (PyFloat.to_int (PyFloat.int_mul s 0.4)) as [b | ]; [ | discriminate ].
  apply andb_true_iff in Hok. destruct Hok as [Ha Hb].
  apply Z.eqb_eq in Ha, Hb. subst. split; reflexivity.
Qed.

Lemma clamp_range (n : Z) : (0 <= clamp n <= 100)%Z.
Proof. unfold clamp. lia. Qed.

(** A text that [int()] accepts is scored by its clamped value. *)
Lemma number_score_int (score_text : pystr) (n : Z) :
  PyInt.int score_text = Return n ->
  number_score score_text
  = Return (fixed_response (clamp n) (clamp n * 3 / 10) (clamp n * 3 / 10) (clamp n * 4 / 10)).
Proof.
  intros Hint. unfold number_score. simpl. rewrite Hint.
  fold (clamp n).
  destruct (to_int_tenths (clamp_range n)) as [-> ->]. reflexivity.
Qed.

(** A text that [int()] refuses gets the defaults. *)
Lemma number_score_default (score_text : pystr) (e : exn) :
  PyInt.int score_text = Raise e ->
  number_score score_text = Return (fixed_response 50 15 15 20).
Proof.
  intros Hint. unfold number_score. simpl. rewrite Hint. reflexivity.
Qed.


(* =================================================================== *)
(** ** The JSON-in-text tier *)
(* =================================================================== *)

Ltac split_match H :=
  match type of H with
  | context [match ?x with _ => _ end] => destruct x eqn:?; try discriminate H
  end.

(** Whatever [object_pairs] reads is a [dict]. *)
Lemma object_pairs_dict (fuel : nat) :
  forall s acc v rest,
    Json.object_pairs fuel s acc = Json.Parsed v rest -> exists d, v = PyDict d.
Proof.
  induction fuel as [ | fuel IH]; intros s acc v rest H; simpl in H; [ discriminate | ].
  repeat split_match H.
  - injection H as <- _. eauto.
  - eapply IH; eassumption.
Qed.

(** A term that opens with a brace is a [dict]. *)
Lemma scan_once_brace_dict (fuel : nat) (t : pystr) (v : pyvalue) (rest : pystr) :
  Json.scan_once fuel (123%N :: t) = Json.Parsed v rest -> exists d, v = PyDict d.
Proof.
  destruct fuel as [ | fuel]; simpl; intros H; [ discriminate | ].
  destruct (Json.skip_ws t) as [ | c1 t1 ]; [ discriminate | ].
  destruct (N.eqb c1 125).
  - injection H as <- _. eauto.
  - eapply object_pairs_dict; eassumption.
Qed.

(** A document that opens with a brace decodes to a [dict], or not at
    all. *)
Lemma loads_brace_dict (t : pystr) (v : pyvalue) :
  Json.loads (123%N :: t) = Return v -> exists d, v = PyDict d.
Proof.
  unfold Json.loads.
  replace (startswith (123%N :: t) [0xFEFF%N]) with false by reflexivity.
  replace (Json.skip_ws (123%N :: t)) with (123%N :: t) by reflexivity.
  destruct (Json.scan_once _ _) as [v' rest | | ] eqn:Hscan; try discriminate.
  destruct (Json.skip_ws rest); [ | discriminate ].
  intros H. injection H as <-. eapply scan_once_brace_dict; eassumption.
Qed.

(** Where [find] finds a character, the text continues with it. *)
Lemma find_from_found (c : char) (s : pystr) :
  forall i, (0 <= find_from i s [c])%Z -> (0 <= i)%Z ->
    (i <= find_from i s [c])%Z
    /\ exists after, skipn (Z.to_nat (find_from i s [c] - i)) s = c :: after.
Proof.
  induction s as [ | x s IH]; intros i Hfound Hi; simpl in *.
  - lia.
  - destruct (N.eqb c x) eqn:Hx; simpl in *.
    + apply N.eqb_eq in Hx. subst x. split; [ lia | ].
      rewrite Z.sub_diag. simpl. eauto.
    + destruct (IH (i + 1)%Z Hfound ltac:(lia)) as [Hle [after Hafter]].
      split; [ lia | ]. exists after.
      replace (Z.to_nat (find_from (i + 1) s [c] - i))
        with (S (Z.to_nat (find_from (i + 1) s [c] - (i + 1)))) by lia.
      exact Hafter.
Qed.

(** The slice the handler decodes opens with the brace it searched for. *)
Lemma slice_from_brace (text : pystr) (stop : Z) :
  (0 <= find text (str "{"))%Z -> (find text (str "{") < stop)%Z ->
  exists t, slice text (find text (str "{")) stop = 123%N :: t.
Proof.
  intros Hfound Hstop. unfold find in *.
  change (str "{") with [123%N] in *.
  destruct (@find_from_found 123%N text 0%Z Hfound ltac:(lia)) as [_ [after Hafter]].
  rewrite Z.sub_0_r in Hafter.
  assert (Hlen : (find_from 0 text [123%N] < len text)%Z).
  { unfold len.
    destruct (Z_lt_le_dec (find_from 0 text [123%N]) (Z.of_nat (List.length text)))
      as [ | Hge ]; [ assumption | ].
    rewrite skipn_all2 in Hafter by lia. discriminate. }
  unfold slice, slice_index.
  destruct (Z.ltb_spec (find_from 0 text [123%N]) 0); [ lia | ].
  destruct (Z.ltb_spec stop 0); [ lia | ].
  rewrite (Z.min_l (find_from 0 text [123%N])) by lia.
  rewrite Hafter.
  destruct (Z.to_nat (Z.min stop (len text) - find_from 0 text [123%N])) eqn:Hn; [ lia | ].
  simpl. eauto.
Qed.


(** The JSON extraction, case by case: with a brace pair in the text the
    slice between the first opening and the last closing brace is
    decoded, and a decoded object gives the response; everything else
    gives none. *)
Lemma json_score_cases (text : pystr) :
  json_score (Some text)
  = let start := find text (str "{") in
    let stop := (rfind text (str "}") + 1)%Z in
    if (0 <=? start)%Z && (start <? stop)%Z then
      match Json.loads (slice text start stop) with
      | Return (PyDict d) => Return (Some (object_score d))
      | _ => Return None
      end
    else Return None.
Proof.
  unfold json_score. simpl.
  destruct ((0 <=? find text (str "{"))%Z && (find text (str "{") <? rfind text (str "}") + 1)%Z);
    [ | reflexivity ].
  destruct (Json.loads _) as [[ | | | | | | d] | e]; reflexivity.
Qed.

(** A reply without a text has no JSON in it. *)
Lemma json_score_no_text : json_score None = Return None.
Proof. reflexivity. Qed.

(** What the slice decodes to is an object, and the response is read off
    it. *)
Lemma json_score_decoded (text : pystr) (v : pyvalue) :
  (0 <= find text (str "{"))%Z ->
  (find text (str "{") < rfind text (str "}") + 1)%Z ->
  Json.loads (slice text (find text (str "{")) (rfind text (str "}") + 1)) = Return v ->
  exists d, v = PyDict d /\ json_score (Some text) = Return (Some (object_score d)).
Proof.
  intros Hstart Hstop Hloads.
  destruct (slice_from_brace text Hstart Hstop) as [t Hslice].
  pose proof Hloads as Hdict. rewrite Hslice in Hdict.
  apply loads_brace_dict in Hdict. destruct Hdict as [d ->].
  exists d. split; [ reflexivity | ].
  rewrite json_score_cases. cbv zeta.
  replace (0 <=? find text (str "{"))%Z with true by (symmetry; apply Z.leb_le; lia).
  replace (find text (str "{") <? rfind text (str "}") + 1)%Z with true
    by (symmetry; apply Z.ltb_lt; lia).
  simpl. rewrite Hloads. reflexivity.
Qed.

(** A response of the JSON tier was read off an object decoded from the
    slice. *)
Lemma json_score_inv (text : pystr) (response : Response.t) :
  json_score (Some text) = Return (Some response) ->
  exists d,
    Json.loads (slice text (find text (str "{")) (rfind text (str "}") + 1)) = Return (PyDict d)
    /\ response = object_score d.
Proof.
  rewrite json_score_cases. cbv zeta.
  destruct (_ && _); [ | discriminate ].
  destruct (Json.loads _) as [[ | | | | | | d] | e]; try discriminate.
  intros H. injection H as <-. eauto.
Qed.


(* =================================================================== *)
(** ** The score relay *)
(* =================================================================== *)

(** The outcome of the schema-constrained attempt, by the reply. *)
Lemma structured_score_cases (prompt : pystr) :
  fst (run (structured_score prompt))
  = match beta_parse client (scoring_params structured_system_prompt prompt) with
    | Raise e => Raise e
    | Return completion =>
        match parsed_choices completion with
        | [] => Raise IndexError
        | None :: _ => Raise (AttributeError "NoneType" "score")
        | Some result :: _ =>
            Return (fixed_response (ReasoningScore.score result)
                                   (ReasoningScore.motive_points result)
                                   (ReasoningScore.method_points result)
                                   (ReasoningScore.logic_points result))
        end
    end.
Proof.
  unfold structured_score, run, call_parse, lift. simpl.
  destruct (beta_parse client _) as [completion | e]; [ | reflexivity ].
  destruct (parsed_choices completion) as [ | [result | ] rest ]; reflexivity.
Qed.

(** The outcome of the plain attempt, by the reply: a reply without a
    choice, or whose first choice has no text, raises. *)
Lemma fallback_score_cases (prompt : pystr) (log : list call) :
  fallback_score prompt log
  = (match create client (scoring_params json_system_prompt prompt) with
     | Raise e => Raise e
     | Return completion =>
         match choices completion with
         | [] => Raise IndexError
         | None :: _ => Raise (AttributeError "NoneType" "strip")
         | Some text :: _ => reply_score text
         end
     end,
     log ++ [chat_completions_create (scoring_params json_system_prompt prompt)]).
Proof.
  unfold fallback_score, reply_score, call_create, lift. simpl.
  destruct (create client _) as [completion | e]; [ | reflexivity ].
  destruct (choices completion) as [ | [text | ] rest ]; simpl; try reflexivity.
  destruct (json_score (Some text)) as [[response | ] | e]; reflexivity.
Qed.

(** The body of the outer [try]: the schema-constrained attempt, and the
    plain one when that raises. *)
Lemma model_score_run (request : ScoreRequest.t) :
  run (model_score request)
  = match fst (run (structured_score (build_prompt request))) with
    | Return response => (Return response, [structured_call request])
    | Raise _ =>
        (fst (run (fallback_score (build_prompt request))),
         [structured_call request; fallback_call request])
    end.
Proof.
  unfold model_score, run at 1. simpl.
  rewrite structured_score_run.
  destruct (fst (run (structured_score (build_prompt request)))) as [response | e];
    [ reflexivity | ].
  unfold run. rewrite !fallback_score_cases. reflexivity.
Qed.

(** The handler on a request that passes the short-circuits: an
    exception that escapes the body becomes the internal-error
    response. *)
Lemma score_reasoning_run (request : ScoreRequest.t) :
  scored_by_model request ->
  run (score_reasoning request)
  = match run (model_score request) with
    | (Return response, calls) => (Return response, calls)
    | (Raise e, calls) =>
        (Raise (HTTPException 500 (str "Error scoring reasoning: " ++ exn_str e)), calls)
    end.
Proof.
  intros [Hcorrect Hlong]. unfold score_reasoning, run.
  rewrite Hcorrect, Hlong. simpl.
  destruct (model_score request []) as [[response | e] calls]; reflexivity.
Qed.

(** In every response the two copies of the score agree. *)
Lemma reply_score_agrees (text : pystr) (response : Response.t) :
  reply_score text = Return response ->
  Response.score response = Breakdown.score (Response.breakdown response).
Proof.
  unfold reply_score.
  destruct (json_score_returns (Some text)) as [[found | ] Hfound]; rewrite Hfound; simpl.
  - intros H. injection H as <-.
    apply json_score_inv in Hfound. destruct Hfound as [d [_ ->]]. reflexivity.
  - destruct (PyInt.int (strip text)) as [n | e] eqn:Hint.
    + rewrite (number_score_int _ Hint). intros H. injection H as <-. reflexivity.
    + rewrite (number_score_default _ Hint). intros H. injection H as <-. reflexivity.
Qed.


(** C1.  A request whose accusation is not correct is answered with
    score 0 and all sub-scores 0, whatever its reasoning and solution,
    and no call is made to the completion client. *)
Theorem incorrect_scores_zero (request : ScoreRequest.t) :
  ScoreRequest.is_correct request = false ->
  run (score_reasoning request)
  = (Return {| Response.score := PyInt 0;
               Response.breakdown :=
                 {| Breakdown.score := PyInt 0;
                    Breakdown.motive_points := PyInt 0;
                    Breakdown.method_points := PyInt 0;
                    Breakdown.logic_points := PyInt 0 |} |},
     []).
Proof.
  intros Hwrong. unfold score_reasoning, run. rewrite Hwrong. reflexivity.
Qed.

(** C2.  A correct accusation whose reasoning has fewer than 20
    characters is answered with score 10 and sub-scores 3, 3 and 4, and
    no call is made to the completion client. *)
Theorem short_reasoning_scores_ten (request : ScoreRequest.t) :
  ScoreRequest.is_correct request = true ->
  (len (ScoreRequest.reasoning request) < 20)%Z ->
  run (score_reasoning request)
  = (Return {| Response.score := PyInt 10;
               Response.breakdown :=
                 {| Breakdown.score := PyInt 10;
                    Breakdown.motive_points := PyInt 3;
                    Breakdown.method_points := PyInt 3;
                    Breakdown.logic_points := PyInt 4 |} |},
     []).
Proof.
  intros Hcorrect Hshort. unfold score_reasoning, run. rewrite Hcorrect. simpl.
  assert (Hts : too_short (ScoreRequest.reasoning request) = true).
  { unfold too_short. apply orb_true_iff. right. apply Z.ltb_lt. exact Hshort. }
  rewrite Hts. reflexivity.
Qed.

(** C3.  The JSON tier.  When the request is scored from the text of the
    plain reply and the text has an opening brace before its last
    closing brace, the slice from the first opening brace to the last
    closing brace is decoded as JSON; what it decodes to is an object,
    and each field of the response is that object's value for the key,
    or the default (50, 15, 15, 20) where the key is missing.  The text
    with the full object between a prefix and a suffix gives 77, 20, 22,
    35; the text with only a score of 60 gives 60, 15, 15, 20. *)
Theorem json_tier_reads_object :
  (forall request text v,
      falls_back_on request text ->
      (0 <= find text (str "{"))%Z ->
      (find text (str "{") < rfind text (str "}") + 1)%Z ->
      Json.loads (slice text (find text (str "{")) (rfind text (str "}") + 1)) = Return v ->
      exists d,
        v = PyDict d
        /\ fst (run (score_reasoning request))
           = Return {| Response.score := dict_get d (str "score") (PyInt 50);
                       Response.breakdown :=
                         {| Breakdown.score := dict_get d (str "score") (PyInt 50);
                            Breakdown.motive_points := dict_get d (str "motive_points") (PyInt 15);
                            Breakdown.method_points := dict_get d (str "method_points") (PyInt 15);
                            Breakdown.logic_points := dict_get d (str "logic_points") (PyInt 20) |} |})
  /\ (forall request,
         falls_back_on request Fixtures.full_object_text ->
         fst (run (score_reasoning request))
         = Return {| Response.score := PyInt 77;
                     Response.breakdown :=
                       {| Breakdown.score := PyInt 77;
                          Breakdown.motive_points := PyInt 20;
                          Breakdown.method_points := PyInt 22;
                          Breakdown.logic_points := PyInt 35 |} |})
  /\ (forall request,
         falls_back_on request Fixtures.partial_object_text ->
         fst (run (score_reasoning request))
         = Return {| Response.score := PyInt 60;
                     Response.breakdown :=
                       {| Breakdown.score := PyInt 60;
                          Breakdown.motive_points := PyInt 15;
                          Breakdown.method_points := PyInt 15;
                          Breakdown.logic_points := PyInt 20 |} |}).
Proof.
  split; [ | split ].
  - intros request text v Hfalls Hstart Hstop Hloads.
    destruct (json_score_decoded text Hstart Hstop Hloads) as [d [-> Hscore]].
    exists d. split; [ reflexivity | ].
    rewrite (score_reasoning_falls_back Hfalls). simpl.
    unfold reply_score. rewrite Hscore. reflexivity.
  - intros request Hfalls. rewrite (score_reasoning_falls_back Hfalls).
    vm_compute. reflexivity.
  - intros request Hfalls. rewrite (score_reasoning_falls_back Hfalls).
    vm_compute. reflexivity.
Qed.

(** C4.  The bare-number tier.  When the JSON tier finds nothing in the
    text of the plain reply and [int()] accepts the stripped text, the
    score is that integer clamped to 0..100 and the sub-scores are
    [int(score * 0.3)], [int(score * 0.3)] and [int(score * 0.4)], which
    are the exact three, three and four tenths of the score rounded
    down.  The text of 88 between blanks gives 88, 26, 26, 35. *)
Theorem number_tier_clamps_and_splits :
  (forall request text n,
      falls_back_on request text ->
      json_score (Some text) = Return None ->
      PyInt.int (strip text) = Return n ->
      let score := Z.max 0 (Z.min 100 n) in
      PyFloat.to_int (PyFloat.int_mul score 0.3) = Return (score * 3 / 10)%Z
      /\ PyFloat.to_int (PyFloat.int_mul score 0.4) = Return (score * 4 / 10)%Z
      /\ fst (run (score_reasoning request))
         = Return {| Response.score := PyInt score;
                     Response.breakdown :=
                       {| Breakdown.score := PyInt score;
                          Breakdown.motive_points := PyInt (score * 3 / 10);
                          Breakdown.method_points := PyInt (score * 3 / 10);
                          Breakdown.logic_points := PyInt (score * 4 / 10) |} |})
  /\ (forall request,
         falls_back_on request Fixtures.bare_number_text ->
         fst (run (score_reasoning request))
         = Return {| Response.score := PyInt 88;
                     Response.breakdown :=
                       {| Breakdown.score := PyInt 88;
                          Breakdown.motive_points := PyInt 26;
                          Breakdown.method_points := PyInt 26;
                          Breakdown.logic_points := PyInt 35 |} |}).
Proof.
  split.
  - intros request text n Hfalls Hjson Hint score.
    destruct (to_int_tenths (clamp_range n)) as [H3 H4].
    split; [ exact H3 | split; [ exact H4 | ] ].
    rewrite (score_reasoning_falls_back Hfalls). simpl.
    unfold reply_score. rewrite Hjson. simpl.
    rewrite (number_score_int _ Hint). reflexivity.
  - intros request Hfalls. rewrite (score_reasoning_falls_back Hfalls).
    vm_compute. reflexivity.
Qed.

(** C5.  The hard fallback.  When the JSON tier finds nothing in the
    text of the plain reply and [int()] refuses the stripped text, the
    response is score 50 with sub-scores 15, 15 and 20; so it is for the
    text "I cannot compute a score". *)
Theorem unparseable_reply_scores_default :
  (forall request text e,
      falls_back_on request text ->
      json_score (Some text) = Return None ->
      PyInt.int (strip text) = Raise e ->
      fst (run (score_reasoning request))
      = Return {| Response.score := PyInt 50;
                  Response.breakdown :=
                    {| Breakdown.score := PyInt 50;
                       Breakdown.motive_points := PyInt 15;
                       Breakdown.method_points := PyInt 15;
                       Breakdown.logic_points := PyInt 20 |} |})
  /\ (forall request,
         falls_back_on request Fixtures.refusal_text ->
         fst (run (score_reasoning request))
         = Return {| Response.score := PyInt 50;
                     Response.breakdown :=
                       {| Breakdown.score := PyInt 50;
                          Breakdown.motive_points := PyInt 15;
                          Breakdown.method_points := PyInt 15;
                          Breakdown.logic_points := PyInt 20 |} |}).
Proof.
  split.
  - intros request text e Hfalls Hjson Hint.
    rewrite (score_reasoning_falls_back Hfalls). simpl.
    unfold reply_score. rewrite Hjson. simpl.
    rewrite (number_score_default _ Hint). reflexivity.
  - intros request Hfalls. rewrite (score_reasoning_falls_back Hfalls).
    vm_compute. reflexivity.
Qed.

(** The two copies agree in what either attempt returns. *)
Lemma structured_score_agrees (prompt : pystr) (response : Response.t) :
  fst (run (structured_score prompt)) = Return response ->
  Response.score response = Breakdown.score (Response.breakdown response).
Proof.
  rewrite structured_score_cases.
  destruct (beta_parse client _) as [completion | e]; [ | discriminate ].
  destruct (parsed_choices completion) as [ | [result | ] rest ]; try discriminate.
  intros H. injection H as <-. reflexivity.
Qed.

Lemma fallback_score_agrees (prompt : pystr) (response : Response.t) :
  fst (run (fallback_score prompt)) = Return response ->
  Response.score response = Breakdown.score (Response.breakdown response).
Proof.
  unfold run. rewrite fallback_score_cases. simpl.
  destruct (create client _) as [reply | e]; [ | discriminate ].
  destruct (choices reply) as [ | [text | ] others ]; try discriminate.
  apply reply_score_agrees.
Qed.

(** C10.  In every response the score handler returns, from either
    short-circuit or from any tier, the top-level score is the score of
    the breakdown. *)
Theorem score_matches_breakdown (request : ScoreRequest.t) (response : Response.t) :
  fst (run (score_reasoning request)) = Return response ->
  Response.score response = Breakdown.score (Response.breakdown response).
Proof.
  destruct (ScoreRequest.is_correct request) eqn:Hcorrect.
  2: { unfold score_reasoning, run. rewrite Hcorrect. simpl.
       intros H. injection H as <-. reflexivity. }
  destruct (too_short (ScoreRequest.reasoning request)) eqn:Hlong.
  { unfold score_reasoning, run. rewrite Hcorrect, Hlong. simpl.
    intros H. injection H as <-. reflexivity. }
  rewrite (score_reasoning_run (conj Hcorrect Hlong)), model_score_run.
  destruct (fst (run (structured_score (build_prompt request)))) as [r | e] eqn:Hstructured.
  - simpl. intros H. injection H as <-.
    eapply structured_score_agrees; eassumption.
  - destruct (fst (run (fallback_score (build_prompt request)))) as [r | e'] eqn:Hfallback;
      [ | discriminate ].
    simpl. intros H. injection H as <-.
    eapply fallback_score_agrees; eassumption.
Qed.


(** A plain reply whose first choice has no text is not absorbed: the
    [strip] of line 145 sits outside the inner [try] blocks, so the
    [AttributeError] escapes to the outer handler. *)
Lemma reply_without_text_is_an_error (request : ScoreRequest.t) (rest : list (option pystr)) :
  scored_by_model request ->
  structured_failed request ->
  create client (scoring_params json_system_prompt (build_prompt request))
  = Return {| choices := None :: rest |} ->
  fst (run (score_reasoning request))
  = Raise (HTTPException 500
             (str "Error scoring reasoning: 'NoneType' object has no attribute 'strip'")).
Proof.
  intros Hscored [e Hfailed] Hreply.
  rewrite (score_reasoning_run Hscored), model_score_run, Hfailed.
  unfold run. rewrite fallback_score_cases, Hreply. reflexivity.
Qed.

(** What the handler returns once the schema-constrained attempt has
    failed, in whatever way, and the plain reply carries a text: no text
    makes the handler raise, malformed JSON and non-numeric text fall
    through the tiers to a response.  That response holds integers in
    all four fields unless the JSON tier produced it, in which case it
    is read off the decoded object, whose values are passed on as they
    are.  A score obtained from the schema-constrained attempt is made
    of integers too.  An exception that escapes the body of the outer
    [try], such as the plain request itself raising, is answered with
    [HTTPException] 500 whose detail is "Error scoring reasoning: "
    followed by the exception's message.  This is about the value the
    handler returns, not about what the framework makes of it. *)
Theorem parse_failures_are_absorbed :
  (forall request text,
      falls_back_on request text ->
      exists response,
        fst (run (score_reasoning request)) = Return response
        /\ (all_integers response
            \/ exists d,
                 Json.loads (slice text (find text (str "{")) (rfind text (str "}") + 1))
                 = Return (PyDict d)
                 /\ response = object_score d))
  /\ (forall request response,
         scored_by_model request ->
         fst (run (structured_score (build_prompt request))) = Return response ->
         fst (run (score_reasoning request)) = Return response
         /\ all_integers response)
  /\ (forall request e,
         scored_by_model request ->
         fst (run (model_score request)) = Raise e ->
         fst (run (score_reasoning request))
         = Raise (HTTPException 500 (str "Error scoring reasoning: " ++ exn_str e)))
  /\ (forall request e,
         scored_by_model request ->
         structured_failed request ->
         create client (scoring_params json_system_prompt (build_prompt request)) = Raise e ->
         fst (run (score_reasoning request))
         = Raise (HTTPException 500 (str "Error scoring reasoning: " ++ exn_str e))).
Proof.
  split; [ | split; [ | split ] ].
  - intros request text Hfalls.
    rewrite (score_reasoning_falls_back Hfalls). simpl.
    unfold reply_score.
    destruct (json_score_returns (Some text)) as [[found | ] Hfound]; rewrite Hfound; simpl.
    + exists found. split; [ reflexivity | ]. right.
      apply json_score_inv. exact Hfound.
    + destruct (PyInt.int (strip text)) as [n | e] eqn:Hint.
      * rewrite (number_score_int _ Hint). eexists. split; [ reflexivity | ].
        left. unfold all_integers, fixed_response. eauto.
      * rewrite (number_score_default _ Hint). eexists. split; [ reflexivity | ].
        left. unfold all_integers, fixed_response. eauto.
  - intros request response Hscored Hstructured. split.
    + rewrite (score_reasoning_run Hscored), model_score_run, Hstructured. reflexivity.
    + rewrite structured_score_cases in Hstructured.
      destruct (beta_parse client _) as [completion | e]; [ | discriminate ].
      destruct (parsed_choices completion) as [ | [result | ] rest ]; try discriminate.
      injection Hstructured as <-. unfold all_integers, fixed_response. eauto.
  - intros request e Hscored Hraised.
    rewrite (score_reasoning_run Hscored).
    destruct (run (model_score request)) as [[response | e'] calls]; simpl in *.
    + discriminate.
    + injection Hraised as ->. reflexivity.
  - intros request e Hscored [e0 Hfailed] Hcreate.
    rewrite (score_reasoning_run Hscored), model_score_run, Hfailed.
    unfold run. rewrite fallback_score_cases, Hcreate. reflexivity.
Qed.

(** Two texts the comparison takes for equal are the same text. *)
Lemma eqb_true (a b : pystr) : PyStr.eqb a b = true -> a = b.
Proof.
  revert b. induction a as [ | x a IH ]; intros [ | y b ]; try discriminate.
  - reflexivity.
  - cbn [PyStr.eqb]. intros H. apply andb_true_iff in H. destruct H as [Hxy Hab].
    apply N.eqb_eq in Hxy. subst y. rewrite (IH b Hab). reflexivity.
Qed.

(** A key that is not among the keys of a dictionary is not found in it. *)
Lemma dict_lookup_missing (d : pydict) (key : pystr) :
  ~ In key (List.map fst d) -> dict_lookup d key = None.
Proof.
  induction d as [ | [k v] d IH ]; [ reflexivity | ].
  cbn [List.map fst In dict_lookup]. intros Hmissing.
  destruct (PyStr.eqb k key) eqn:Hkey.
  - exfalso. apply Hmissing. left. apply eqb_true. exact Hkey.
  - apply IH. intros Hin. apply Hmissing. right. exact Hin.
Qed.

(** C8.  The prompt, character by character (10 is the line feed, 34 the
    double quote): each of the keys culprit, method and motive is
    rendered by its value in the solution, and by "Unknown" where the
    solution has no such key.  A key that is not among the solution's
    keys is rendered as "Unknown"; with none of the three keys the three
    lines read "Unknown".  Nothing in the construction can raise: a
    request that passes the short-circuits always reaches the completion
    client, and the user message of its first call is the prompt. *)
Theorem missing_solution_keys_render_unknown :
  (forall request,
      let field key :=
        match dict_lookup (ScoreRequest.solution request) (str key) with
        | Some v => format_value v
        | None => str "Unknown"
        end in
      build_prompt request
      = str "THE CORRECT SOLUTION:" ++ [10%N]
        ++ str "- Culprit: " ++ field "culprit"%string ++ [10%N]
        ++ str "- Method: " ++ field "method"%string ++ [10%N]
        ++ str "- Motive: " ++ field "motive"%string ++ [10%N; 10%N]
        ++ str "THE DETECTIVE'S REASONING:" ++ [10%N; 34%N]
        ++ ScoreRequest.reasoning request ++ [34%N; 10%N; 10%N]
        ++ str "Evaluate the reasoning and provide a structured score.")
  /\ (forall request key,
         ~ In (str key) (List.map fst (ScoreRequest.solution request)) ->
         solution_field request key = str "Unknown")
  /\ (forall request,
         (forall key,
             In key [str "culprit"; str "method"; str "motive"] ->
             ~ In key (List.map fst (ScoreRequest.solution request))) ->
         build_prompt request
         = str "THE CORRECT SOLUTION:" ++ [10%N]
           ++ str "- Culprit: Unknown" ++ [10%N]
           ++ str "- Method: Unknown" ++ [10%N]
           ++ str "- Motive: Unknown" ++ [10%N; 10%N]
           ++ str "THE DETECTIVE'S REASONING:" ++ [10%N; 34%N]
           ++ ScoreRequest.reasoning request ++ [34%N; 10%N; 10%N]
           ++ str "Evaluate the reasoning and provide a structured score.")
  /\ (forall request,
         scored_by_model request ->
         exists later,
           snd (run (score_reasoning request))
           = beta_chat_completions_parse
               {| Params.model := SCORING_MODEL;
                  Params.messages :=
                    [ {| Message.role := system; Message.content := structured_system_prompt |};
                      {| Message.role := user; Message.content := build_prompt request |} ];
                  Params.max_tokens := 100;
                  Params.temperature := 0.1 |} :: later).
Proof.
  split; [ | split; [ | split ] ].
  - intros request field. subst field.
    unfold build_prompt, solution_field, dict_get, quoted, DQ.
    cbn [lines]. unfold LF.
    destruct (dict_lookup _ (str "culprit")), (dict_lookup _ (str "method")),
      (dict_lookup _ (str "motive"));
      repeat rewrite <- app_assoc; reflexivity.
  - intros request key Hmissing.
    unfold solution_field, dict_get.
    rewrite (dict_lookup_missing _ _ Hmissing). reflexivity.
  - intros request Hmissing.
    unfold build_prompt, solution_field, dict_get, quoted, DQ.
    rewrite !dict_lookup_missing by (apply Hmissing; cbn [In]; auto).
    cbn [lines format_value]. unfold LF.
    repeat rewrite <- app_assoc. reflexivity.
  - intros request Hscored.
    rewrite (score_reasoning_run Hscored), model_score_run.
    destruct (fst (run (structured_score (build_prompt request)))) as [r | e].
    + exists []. reflexivity.
    + destruct (fst (run (fallback_score (build_prompt request)))) as [r | e'];
        eexists; reflexivity.
Qed.


(* =================================================================== *)
(** ** The chat relay *)
(* =================================================================== *)

(** The handler makes its one call, and answers by what the call gives. *)
Lemma chat_run (request : ChatRequest.t) :
  run (chat request)
  = (match create_stream client (chat_params request) with
     | Return stream =>
         Return {| body := generate stream; media_type := str "text/plain" |}
     | Raise e => Raise (HTTPException 500 (exn_str e))
     end,
     [chat_completions_create_stream (chat_params request)]).
Proof.
  unfold chat, run, call_create_stream. simpl.
  destruct (create_stream client (chat_params request)); reflexivity.
Qed.

(** The generator yields the non-empty fragments of the chunks it takes,
    in their order. *)
Lemma generate_from_yields (chunks : list ChatCompletionChunk) (failure : option exn) :
  yielded (generate_from chunks failure) = filter nonempty (fragments (consumed chunks)).
Proof.
  induction chunks as [ | chunk rest IH]; [ reflexivity | ].
  simpl. unfold has_choice.
  destruct (delta_choices chunk) as [ | [[ | c text] | ] others] eqn:Hchoices; simpl.
  - reflexivity.
  - rewrite Hchoices. exact IH.
  - rewrite Hchoices. simpl. rewrite IH. reflexivity.
  - rewrite Hchoices. exact IH.
Qed.

Lemma consumed_all (chunks : list ChatCompletionChunk) :
  forallb has_choice chunks = true -> consumed chunks = chunks.
Proof.
  induction chunks as [ | chunk rest IH]; [ reflexivity | ].
  simpl. intros H. apply andb_true_iff in H. destruct H as [Hchunk Hrest].
  rewrite Hchunk, (IH Hrest). reflexivity.
Qed.

(** A stream whose chunks all have a choice ends the way the stream
    does. *)
Lemma generate_from_ends (chunks : list ChatCompletionChunk) (failure : option exn) :
  forallb has_choice chunks = true ->
  ended_by (generate_from chunks failure) = failure.
Proof.
  induction chunks as [ | chunk rest IH]; [ reflexivity | ].
  simpl. unfold has_choice at 1. intros H.
  destruct (delta_choices chunk) as [ | [[ | c text] | ] others]; simpl in *;
    [ discriminate | exact (IH H) .. ].
Qed.

(** Dropping empty texts does not change what the texts spell. *)
Lemma concat_nonempty (texts : list pystr) :
  List.concat (filter nonempty texts) = List.concat texts.
Proof.
  induction texts as [ | [ | c text] rest IH]; simpl; [ reflexivity | exact IH | ].
  rewrite IH. reflexivity.
Qed.

(** What has been yielded once some chunks have arrived does not depend
    on the chunks that arrive later. *)
Lemma generate_from_app (before after : list ChatCompletionChunk) (failure : option exn) :
  forallb has_choice before = true ->
  yielded (generate_from (before ++ after) failure)
  = yielded (generate_from before None) ++ yielded (generate_from after failure).
Proof.
  induction before as [ | chunk rest IH]; [ reflexivity | ].
  simpl. unfold has_choice at 1. intros H.
  destruct (delta_choices chunk) as [ | [[ | c text] | ] others]; simpl in *;
    [ discriminate | exact (IH H) | | exact (IH H) ].
  rewrite (IH H). reflexivity.
Qed.

(** C9.  The messages sent upstream are the system prompt, as a message
    of role system, followed by the messages of the request in their
    order, each with its role and content; for a request without
    messages they are the system message alone.  The handler makes this
    one streaming call, and answers with a streaming response whenever
    the call returns a stream, also when the request has no message. *)
Theorem chat_prepends_system_prompt :
  (forall request,
      upstream_messages request
      = {| Message.role := system; Message.content := ChatRequest.system_prompt request |}
        :: List.map (fun msg => {| Message.role := ChatMessage.role msg;
                                   Message.content := ChatMessage.content msg |})
                    (ChatRequest.messages request))
  /\ (forall request,
         ChatRequest.messages request = [] ->
         upstream_messages request
         = [ {| Message.role := system;
                Message.content := ChatRequest.system_prompt request |} ])
  /\ (forall request,
         snd (run (chat request))
         = [ chat_completions_create_stream
               {| Params.model := DEFAULT_MODEL;
                  Params.messages := upstream_messages request;
                  Params.max_tokens := 300;
                  Params.temperature := 0.8 |} ])
  /\ (forall request stream,
         create_stream client (chat_params request) = Return stream ->
         fst (run (chat request))
         = Return {| body := generate stream; media_type := str "text/plain" |})
  /\ (forall request e,
         create_stream client (chat_params request) = Raise e ->
         fst (run (chat request)) = Raise (HTTPException 500 (exn_str e))).
Proof.
  split; [ | split; [ | split; [ | split ] ] ].
  - intros request. reflexivity.
  - intros request Hempty. unfold upstream_messages. rewrite Hempty. reflexivity.
  - intros request. rewrite chat_run. reflexivity.
  - intros request stream Hstream. rewrite chat_run, Hstream. reflexivity.
  - intros request e Hraise. rewrite chat_run, Hraise. reflexivity.
Qed.

(** C6, as amended: for every upstream stream in which every chunk
    carries a choice.  The body of the streaming response is the
    generator run over the upstream stream.  It yields the non-empty
    text fragments of the chunks it takes from the stream, each as it
    was received and in the order received, and nothing else.  When
    every chunk has a choice it takes them all: what it yields spells
    exactly what the fragments spell, and it ends as the stream ends.
    What it has yielded after some chunks does not depend on later ones.
    A stream of the fragments "Hello", ", " and "world" is observed as
    these three, in this order.  What a chunk without a choice does to
    the stream is not part of this statement. *)
Theorem chat_forwards_fragments_in_order :
  (forall request stream,
      create_stream client (chat_params request) = Return stream ->
      exists response,
        fst (run (chat request)) = Return response
        /\ yielded (body response) = filter nonempty (fragments (consumed (chunks stream))))
  /\ (forall request stream,
         create_stream client (chat_params request) = Return stream ->
         forallb has_choice (chunks stream) = true ->
         exists response,
           fst (run (chat request)) = Return response
           /\ yielded (body response) = filter nonempty (fragments (chunks stream))
           /\ List.concat (yielded (body response)) = List.concat (fragments (chunks stream))
           /\ ended_by (body response) = failure stream)
  /\ (forall before after failure,
         forallb has_choice before = true ->
         yielded (generate_from (before ++ after) failure)
         = yielded (generate_from before None) ++ yielded (generate_from after failure))
  /\ (forall request,
         create_stream client (chat_params request)
         = Return (Fixtures.stream_of [str "Hello"; str ", "; str "world"]) ->
         exists response,
           fst (run (chat request)) = Return response
           /\ body response
              = {| yielded := [str "Hello"; str ", "; str "world"]; ended_by := None |}
           /\ List.concat (yielded (body response)) = str "Hello, world").
Proof.
  split; [ | split; [ | split ] ].
  - intros request stream Hstream. rewrite chat_run, Hstream. simpl.
    eexists. split; [ reflexivity | ]. simpl. apply generate_from_yields.
  - intros request stream Hstream Hall. rewrite chat_run, Hstream. simpl.
    eexists. split; [ reflexivity | ]. simpl. unfold generate.
    rewrite generate_from_yields, (consumed_all _ Hall), concat_nonempty.
    repeat split. apply generate_from_ends. exact Hall.
  - exact generate_from_app.
  - intros request Hstream. rewrite chat_run, Hstream. simpl.
    eexists. split; [ reflexivity | ]. split; reflexivity.
Qed.


(* =================================================================== *)
(** ** More on the score relay: calls, errors, boundaries *)
(* =================================================================== *)

(** The emptiness test of line 42 adds nothing to the length test. *)
Lemma too_short_length (reasoning : pystr) :
  too_short reasoning = (len reasoning <? 20)%Z.
Proof.
  unfold too_short, len. destruct reasoning as [ | c reasoning ]; reflexivity.
Qed.

Lemma scored_by_model_length (request : ScoreRequest.t) :
  scored_by_model request
  <-> ScoreRequest.is_correct request = true
      /\ (20 <= len (ScoreRequest.reasoning request))%Z.
Proof.
  unfold scored_by_model. rewrite too_short_length, Z.ltb_ge. reflexivity.
Qed.

Lemma structured_failed_cases (request : ScoreRequest.t) :
  structured_failed request <-> no_structured_result request.
Proof.
  unfold structured_failed, no_structured_result. cbv zeta.
  rewrite structured_score_cases.
  destruct (beta_parse client _) as [completion | e0].
  - destruct (parsed_choices completion) as [ | [result | ] rest ] eqn:Hchoices.
    + split; [ intros _ | eauto ]. right. left. eauto.
    + split.
      * intros [e He]. discriminate.
      * intros [[e He] | [[c [Hc Hnone]] | [c [rest' [Hc Hnone]]]]];
          [ discriminate | | ]; injection Hc as <-; congruence.
    + split; [ intros _ | eauto ]. right. right. eauto.
  - split; [ intros _ | eauto ]. left. eauto.
Qed.

(** What the plain attempt comes to when it does not return. *)
Lemma fallback_score_raises (request : ScoreRequest.t) (cause : exn) :
  fst (run (fallback_score (build_prompt request))) = Raise cause
  <-> plain_failure request cause.
Proof.
  unfold run, plain_failure. cbv zeta. rewrite fallback_score_cases. simpl.
  destruct (create client _) as [completion | e0].
  - destruct (choices completion) as [ | [text | ] rest ] eqn:Hchoices.
    + split.
      * intros H. injection H as <-. right. left. eauto.
      * intros [H | [[c [Hc [_ ->]]] | [c [rest' [Hc [Hnone _]]]]]];
          [ discriminate | reflexivity | ].
        injection Hc as <-. congruence.
    + destruct (reply_score_returns text) as [response ->]. split.
      * discriminate.
      * intros [H | [[c [Hc [Hnone _]]] | [c [rest' [Hc [Hnone _]]]]]];
          [ discriminate | | ]; injection Hc as <-; congruence.
    + split.
      * intros H. injection H as <-. right. right. eauto.
      * intros [H | [[c [Hc [Hnone _]]] | [c [rest' [Hc [_ ->]]]]]];
          [ discriminate | | reflexivity ].
        injection Hc as <-. congruence.
  - split.
    + intros H. injection H as <-. left. reflexivity.
    + intros [H | [[c [Hc _]] | [c [rest' [Hc _]]]]]; [ | discriminate .. ].
      injection H as <-. reflexivity.
Qed.

(** X1.  When the schema-constrained reply has a parsed result in its
    first choice, the handler answers with exactly its four integers,
    whatever their size, and makes no other call. *)
Theorem structured_result_is_returned_unchanged
        (request : ScoreRequest.t) (completion : ParsedChatCompletion)
        (result : ReasoningScore.t) (rest : list (option ReasoningScore.t)) :
  scored_by_model request ->
  beta_parse client (scoring_params structured_system_prompt (build_prompt request))
  = Return completion ->
  parsed_choices completion = Some result :: rest ->
  run (score_reasoning request)
  = (Return {| Response.score := PyInt (ReasoningScore.score result);
               Response.breakdown :=
                 {| Breakdown.score := PyInt (ReasoningScore.score result);
                    Breakdown.motive_points := PyInt (ReasoningScore.motive_points result);
                    Breakdown.method_points := PyInt (ReasoningScore.method_points result);
                    Breakdown.logic_points := PyInt (ReasoningScore.logic_points result) |} |},
     [ beta_chat_completions_parse
         (scoring_params structured_system_prompt (build_prompt request)) ]).
Proof.
  intros Hscored Hreply Hchoices.
  rewrite (score_reasoning_run Hscored), model_score_run, structured_score_cases.
  rewrite Hreply, Hchoices. reflexivity.
Qed.

(** X2.  A request that passes the short-circuits makes the
    schema-constrained call first, and the plain call after it exactly
    when the first gave no result; it makes no third call.  Both calls
    name the scoring model, allow 100 tokens at temperature 0.1, and
    carry the same user message. *)
Theorem score_calls_structured_then_plain (request : ScoreRequest.t) :
  scored_by_model request ->
  let params system_prompt :=
    {| Params.model := SCORING_MODEL;
       Params.messages :=
         [ {| Message.role := system; Message.content := system_prompt |};
           {| Message.role := user; Message.content := build_prompt request |} ];
       Params.max_tokens := 100;
       Params.temperature := 0.1 |} in
  (no_structured_result request
   /\ snd (run (score_reasoning request))
      = [ beta_chat_completions_parse (params structured_system_prompt);
          chat_completions_create (params json_system_prompt) ])
  \/ (~ no_structured_result request
      /\ snd (run (score_reasoning request))
         = [ beta_chat_completions_parse (params structured_system_prompt) ]).
Proof.
  intros Hscored params.
  rewrite (score_reasoning_run Hscored), model_score_run.
  destruct (fst (run (structured_score (build_prompt request)))) as [r | e] eqn:Hstructured.
  - right. split; [ | reflexivity ].
    intros Hnone. apply structured_failed_cases in Hnone.
    destruct Hnone as [e He]. congruence.
  - left. split.
    + apply structured_failed_cases. exists e. exact Hstructured.
    + destruct (fst (run (fallback_score (build_prompt request)))); reflexivity.
Qed.

(** X3.  The handler raises in exactly one situation: the request passed
    the short-circuits, the schema-constrained request gave no result,
    and the plain request gave no text (its call raised, or its reply
    had no choice, or its first choice had no content).  What it raises
    is [HTTPException] 500 with "Error scoring reasoning: " and the
    message of that last exception. *)
Theorem score_errors_characterised (request : ScoreRequest.t) (e : exn) :
  fst (run (score_reasoning request)) = Raise e
  <-> scored_by_model request
      /\ no_structured_result request
      /\ exists cause,
           plain_failure request cause
           /\ e = HTTPException 500 (str "Error scoring reasoning: " ++ exn_str cause).
Proof.
  split.
  - intros Hraise.
    assert (Hscored : scored_by_model request).
    { unfold scored_by_model.
      unfold score_reasoning, run in Hraise.
      destruct (ScoreRequest.is_correct request); [ | discriminate ].
      destruct (too_short (ScoreRequest.reasoning request)); [ discriminate | ].
      split; reflexivity. }
    split; [ exact Hscored | ].
    rewrite (score_reasoning_run Hscored), model_score_run in Hraise.
    destruct (fst (run (structured_score (build_prompt request)))) as [r | e0] eqn:Hstructured;
      [ discriminate | ].
    split; [ apply structured_failed_cases; exists e0; exact Hstructured | ].
    destruct (fst (run (fallback_score (build_prompt request)))) as [r | cause] eqn:Hfallback;
      [ discriminate | ].
    exists cause. split; [ apply fallback_score_raises; exact Hfallback | ].
    cbn [fst] in Hraise. injection Hraise as <-. reflexivity.
  - intros [Hscored [Hnone [cause [Hplain ->]]]].
    apply structured_failed_cases in Hnone. destruct Hnone as [e0 Hfailed].
    apply fallback_score_raises in Hplain.
    rewrite (score_reasoning_run Hscored), model_score_run, Hfailed, Hplain.
    reflexivity.
Qed.

(** X4.  The completion client is consulted exactly for the correct
    accusations whose reasoning has 20 characters or more: 20 is the
    first length that is not short, and an incorrect accusation is never
    sent however long its reasoning. *)
Theorem model_consulted_iff (request : ScoreRequest.t) :
  snd (run (score_reasoning request)) <> []
  <-> ScoreRequest.is_correct request = true
      /\ (20 <= len (ScoreRequest.reasoning request))%Z.
Proof.
  rewrite <- scored_by_model_length. split.
  - intros Hcalls. unfold scored_by_model.
    unfold score_reasoning, run in Hcalls.
    destruct (ScoreRequest.is_correct request); [ | contradiction Hcalls; reflexivity ].
    destruct (too_short (ScoreRequest.reasoning request));
      [ contradiction Hcalls; reflexivity | split; reflexivity ].
  - intros Hscored.
    rewrite (score_reasoning_run Hscored), model_score_run.
    destruct (fst (run (structured_score (build_prompt request)))).
    + discriminate.
    + destruct (fst (run (fallback_score (build_prompt request)))); discriminate.
Qed.


(* =================================================================== *)
(** ** Braces in the text of the plain reply *)
(* =================================================================== *)

(** [find] skips a stretch without the character. *)
Lemma find_from_lacks_app (c : char) (a b : pystr) :
  forall i, lacks c a = true ->
       find_from i (a ++ b) [c] = find_from (i + Z.of_nat (List.length a)) b [c].
Proof.
  induction a as [ | x a IH]; intros i Hlacks; simpl in *.
  - rewrite Z.add_0_r. reflexivity.
  - apply andb_true_iff in Hlacks. destruct Hlacks as [Hx Ha].
    apply negb_true_iff in Hx. rewrite N.eqb_sym in Hx.
    cbn [startswith]. rewrite Hx. simpl.
    rewrite (IH (i + 1)%Z Ha). f_equal. lia.
Qed.

(** [find] answers [-1] or an index from where it started. *)
Lemma find_from_range (c : char) (s : pystr) :
  forall i, find_from i s [c] = (-1)%Z \/ (i <= find_from i s [c])%Z.
Proof.
  induction s as [ | x s IH]; intros i; simpl.
  - left. reflexivity.
  - destruct (N.eqb c x); simpl.
    + right. lia.
    + destruct (IH (i + 1)%Z) as [-> | H]; [ left; reflexivity | right; lia ].
Qed.

(** [rfind] does not see past the last occurrence. *)
Lemma rfind_from_app_lacks (c : char) (a b : pystr) :
  forall i, lacks c b = true -> rfind_from i (a ++ b) [c] = rfind_from i a [c].
Proof.
  induction a as [ | x a IH]; intros i Hlacks.
  - simpl. clear - Hlacks. revert i.
    induction b as [ | y b IHb]; intros i; [ reflexivity | ].
    simpl in Hlacks. apply andb_true_iff in Hlacks. destruct Hlacks as [Hy Hb].
    apply negb_true_iff in Hy. rewrite N.eqb_sym in Hy.
    cbn [rfind_from startswith]. rewrite (IHb Hb (i + 1)%Z), Hy. reflexivity.
  - cbn [app rfind_from startswith]. rewrite (IH (i + 1)%Z Hlacks). reflexivity.
Qed.

(** [rfind] answers [-1] or an index within the text. *)
Lemma rfind_from_range (c : char) (s : pystr) :
  forall i, (0 <= i)%Z ->
       rfind_from i s [c] = (-1)%Z
       \/ (i <= rfind_from i s [c] < i + Z.of_nat (List.length s))%Z.
Proof.
  induction s as [ | x s IH]; intros i Hi.
  - left. reflexivity.
  - cbn [rfind_from startswith List.length].
    destruct (IH (i + 1)%Z ltac:(lia)) as [-> | Hlater].
    + simpl. destruct (N.eqb c x); simpl; [ right; lia | left; reflexivity ].
    + destruct (Z.leb_spec 0 (rfind_from (i + 1) s [c])); [ right; lia | lia ].
Qed.

(** Where the text ends in the character, [rfind] finds that end. *)
Lemma rfind_from_last (c : char) (a : pystr) :
  forall i, (0 <= i)%Z -> rfind_from i (a ++ [c]) [c] = (i + Z.of_nat (List.length a))%Z.
Proof.
  induction a as [ | x a IH]; intros i Hi.
  - simpl. rewrite N.eqb_refl. simpl. lia.
  - cbn [app rfind_from List.length]. rewrite (IH (i + 1)%Z ltac:(lia)).
    destruct (Z.leb_spec 0 (i + 1 + Z.of_nat (List.length a))); lia.
Qed.

(** The slice between the ends of a middle part is the middle part. *)
Lemma slice_middle (a b c : pystr) :
  slice (a ++ b ++ c) (Z.of_nat (List.length a))
        (Z.of_nat (List.length a) + Z.of_nat (List.length b)) = b.
Proof.
  unfold slice, slice_index, len. rewrite !length_app.
  destruct (Z.ltb_spec (Z.of_nat (List.length a)) 0); [ lia | ].
  destruct (Z.ltb_spec (Z.of_nat (List.length a) + Z.of_nat (List.length b)) 0); [ lia | ].
  rewrite !Z.min_l by lia.
  replace (Z.to_nat (Z.of_nat (List.length a) + Z.of_nat (List.length b)
                     - Z.of_nat (List.length a))) with (List.length b) by lia.
  rewrite Nat2Z.id, skipn_app, skipn_all, Nat.sub_diag. simpl.
  rewrite firstn_app, firstn_all, Nat.sub_diag. simpl. apply app_nil_r.
Qed.

(** In a text that is an object in braces between a stretch without an
    opening brace and a stretch without a closing brace, the handler's
    two searches find the braces of the object, and its slice is the
    object. *)
Lemma braces_delimit_object (before middle after : pystr) :
  lacks 123 before = true ->
  lacks 125 after = true ->
  let object := 123%N :: middle ++ [125%N] in
  let text := before ++ object ++ after in
  (0 <= find text (str "{"))%Z
  /\ (find text (str "{") < rfind text (str "}") + 1)%Z
  /\ slice text (find text (str "{")) (rfind text (str "}") + 1) = object.
Proof.
  intros Hbefore Hafter object text. subst object text.
  assert (Hfind : find (before ++ (123%N :: middle ++ [125%N]) ++ after) (str "{")
                  = Z.of_nat (List.length before)).
  { unfold find. change (str "{") with [123%N].
    rewrite find_from_lacks_app by exact Hbefore. reflexivity. }
  assert (Hrfind : (rfind (before ++ (123%N :: middle ++ [125%N]) ++ after) (str "}") + 1
                    = Z.of_nat (List.length before)
                      + Z.of_nat (List.length (123%N :: middle ++ [125%N])))%Z).
  { unfold rfind. change (str "}") with [125%N].
    rewrite app_assoc, rfind_from_app_lacks by exact Hafter.
    change (123%N :: middle ++ [125%N]) with ((123%N :: middle) ++ [125%N]).
    rewrite app_assoc, rfind_from_last by lia.
    rewrite !length_app. simpl. lia. }
  rewrite Hfind, Hrfind, slice_middle.
  split; [ lia | split; [ simpl; lia | reflexivity ] ].
Qed.

(** X5.  Prose around the object does not matter to the JSON tier: when
    the text is an object in braces with a stretch before it that has no
    opening brace and a stretch after it that has no closing brace, what
    is decoded is the object alone, and the tier's answer is read off
    it. *)
Theorem prose_around_object_is_ignored (before middle after : pystr) :
  lacks 123 before = true ->
  lacks 125 after = true ->
  json_score (Some (before ++ (123%N :: middle ++ [125%N]) ++ after))
  = match Json.loads (123%N :: middle ++ [125%N]) with
    | Return (PyDict d) => Return (Some (object_score d))
    | _ => Return None
    end.
Proof.
  intros Hbefore Hafter.
  destruct (@braces_delimit_object before middle after Hbefore Hafter)
    as [Hstart [Hstop Hslice]].
  rewrite json_score_cases. cbv zeta.
  rewrite Hslice.
  replace (0 <=? find _ _)%Z with true by (symmetry; apply Z.leb_le; exact Hstart).
  replace (find _ _ <? rfind _ _ + 1)%Z with true by (symmetry; apply Z.ltb_lt; exact Hstop).
  reflexivity.
Qed.

(** X6.  A text that splits into a stretch without an opening brace
    followed by a stretch without a closing brace - no brace at all, only
    one kind, or every closing brace before the first opening one - has
    no JSON in it for the handler: nothing is decoded, and the text goes
    on to the bare-number tier. *)
Theorem braces_out_of_order_give_no_object (before after : pystr) :
  lacks 123 before = true ->
  lacks 125 after = true ->
  json_score (Some (before ++ after)) = Return None.
Proof.
  intros Hbefore Hafter.
  rewrite json_score_cases. cbv zeta.
  unfold find, rfind. change (str "{") with [123%N]. change (str "}") with [125%N].
  rewrite find_from_lacks_app by exact Hbefore.
  rewrite rfind_from_app_lacks by exact Hafter.
  destruct (find_from_range 123 after (0 + Z.of_nat (List.length before))) as [-> | Hfind];
    [ reflexivity | ].
  destruct (@rfind_from_range 125 before 0%Z ltac:(lia)) as [-> | Hrfind].
  - replace (_ <? -1 + 1)%Z with false by (symmetry; apply Z.ltb_ge; lia).
    rewrite andb_false_r. reflexivity.
  - replace (_ <? _)%Z with false by (symmetry; apply Z.ltb_ge; lia).
    rewrite andb_false_r. reflexivity.
Qed.


(* =================================================================== *)
(** ** The arithmetic of the bare-number tier *)
(* =================================================================== *)

(** The tenths of a clamped score: their ranges, and how far their sum
    falls short of the score. *)
Lemma tenths_bounds (s : Z) :
  (0 <= s <= 100)%Z ->
  (0 <= s * 3 / 10 <= 30)%Z
  /\ (0 <= s * 4 / 10 <= 40)%Z
  /\ (s - 2 <= s * 3 / 10 + s * 3 / 10 + s * 4 / 10 <= s)%Z
  /\ (s * 3 / 10 + s * 3 / 10 + s * 4 / 10 = s <-> s mod 10 = 0)%Z.
Proof.
  intros Hs.
  pose proof (Z.div_mod (s * 3) 10 ltac:(lia)) as H3.
  pose proof (Z.mod_pos_bound (s * 3) 10 ltac:(lia)) as B3.
  pose proof (Z.div_mod (s * 4) 10 ltac:(lia)) as H4.
  pose proof (Z.mod_pos_bound (s * 4) 10 ltac:(lia)) as B4.
  pose proof (Z.div_mod s 10 ltac:(lia)) as H1.
  pose proof (Z.mod_pos_bound s 10 ltac:(lia)) as B1.
  repeat split; try lia.
Qed.

(** X7.  In a response of the bare-number tier the score lies in 0..100
    (a number at or below 0 gives 0, one at or above 100 gives 100), the
    motive and method points are equal and lie in 0..30, the logic
    points lie in 0..40, and the three sub-scores add up to the score or
    to at most 2 less; they add up to it exactly when the score is a
    multiple of ten. *)
Theorem number_tier_sub_scores (request : ScoreRequest.t) (text : pystr) (n : Z) :
  falls_back_on request text ->
  json_score (Some text) = Return None ->
  PyInt.int (strip text) = Return n ->
  exists score motive logic,
    fst (run (score_reasoning request))
    = Return {| Response.score := PyInt score;
                Response.breakdown :=
                  {| Breakdown.score := PyInt score;
                     Breakdown.motive_points := PyInt motive;
                     Breakdown.method_points := PyInt motive;
                     Breakdown.logic_points := PyInt logic |} |}
    /\ (0 <= score <= 100)%Z
    /\ (n <= 0 -> score = 0)%Z
    /\ (0 <= n <= 100 -> score = n)%Z
    /\ (100 <= n -> score = 100)%Z
    /\ (0 <= motive <= 30)%Z
    /\ (0 <= logic <= 40)%Z
    /\ (score - 2 <= motive + motive + logic <= score)%Z
    /\ (motive + motive + logic = score <-> score mod 10 = 0)%Z.
Proof.
  intros Hfalls Hjson Hint.
  exists (clamp n), (clamp n * 3 / 10)%Z, (clamp n * 4 / 10)%Z.
  destruct (tenths_bounds (clamp_range n)) as [Hmotive [Hlogic [Hsum Hexact]]].
  split.
  { rewrite (score_reasoning_falls_back Hfalls). simpl.
    unfold reply_score. rewrite Hjson. simpl.
    rewrite (number_score_int _ Hint). reflexivity. }
  split; [ apply clamp_range | ].
  split; [ unfold clamp; lia | ].
  split; [ unfold clamp; lia | ].
  split; [ unfold clamp; lia | ].
  split; [ exact Hmotive | ].
  split; [ exact Hlogic | ].
  split; [ exact Hsum | exact Hexact ].
Qed.


(* =================================================================== *)
(** ** A reply made of digits *)
(* =================================================================== *)

Lemma digit_cases (c : char) :
  Digits.is_digit c = true ->
  (c = 48 \/ c = 49 \/ c = 50 \/ c = 51 \/ c = 52
   \/ c = 53 \/ c = 54 \/ c = 55 \/ c = 56 \/ c = 57)%N.
Proof.
  unfold Digits.is_digit, between. intros H.
  apply andb_true_iff in H. destruct H as [Hlo Hhi].
  apply N.leb_le in Hlo, Hhi. lia.
Qed.

(** What the handler's built-ins make of an ASCII digit: it is no white
    space, no sign, no underscore and no brace, and [int()] reads it as
    it is. *)
Lemma digit_facts (c : char) :
  Digits.is_digit c = true ->
  isspace c = false
  /\ PyInt.is_ascii_space c = false
  /\ PyInt.to_ascii c = c
  /\ N.eqb c 43 = false
  /\ N.eqb c 45 = false
  /\ N.eqb 95 c = false
  /\ negb (N.eqb c 123) = true
  /\ (0 <= Z.of_N c - 48)%Z.
Proof.
  intros H. apply digit_cases in H.
  repeat destruct H as [H | H]; subst c; repeat split; try reflexivity; lia.
Qed.

Lemma space_is_no_brace (c : char) : isspace c = true -> negb (N.eqb c 123) = true.
Proof.
  intros H. destruct (N.eqb_spec c 123) as [-> | _]; [ discriminate | reflexivity ].
Qed.

Lemma lstrip_spaces (spaces s : pystr) :
  forallb isspace spaces = true -> lstrip (spaces ++ s) = lstrip s.
Proof.
  induction spaces as [ | c spaces IH]; [ reflexivity | ].
  simpl. intros H. apply andb_true_iff in H. destruct H as [Hc Hspaces].
  rewrite Hc. exact (IH Hspaces).
Qed.

(** Stripping leaves the digits between the blanks. *)
Lemma strip_digits (before digits after : pystr) :
  forallb isspace before = true ->
  forallb isspace after = true ->
  digits <> [] ->
  forallb Digits.is_digit digits = true ->
  strip (before ++ digits ++ after) = digits.
Proof.
  intros Hbefore Hafter Hsome Hdigits.
  unfold strip, rstrip. rewrite lstrip_spaces by exact Hbefore.
  assert (Hleft : lstrip (digits ++ after) = digits ++ after).
  { destruct digits as [ | d digits ]; [ contradiction | ].
    simpl in Hdigits. apply andb_true_iff in Hdigits. destruct Hdigits as [Hd _].
    simpl. rewrite (proj1 (@digit_facts d Hd)). reflexivity. }
  rewrite Hleft, rev_app_distr.
  assert (Hrev : forallb isspace (rev after) = true).
  { apply forallb_forall. intros x Hx. apply in_rev in Hx.
    exact (proj1 (forallb_forall _ _) Hafter x Hx). }
  rewrite lstrip_spaces by exact Hrev.
  destruct (rev digits) as [ | d rest ] eqn:Hdrev.
  - apply (f_equal (@rev N)) in Hdrev. rewrite rev_involutive in Hdrev. contradiction.
  - assert (Hd : Digits.is_digit d = true).
    { apply (proj1 (forallb_forall _ _) Hdigits). apply in_rev. rewrite Hdrev. left. reflexivity. }
    simpl. rewrite (proj1 (@digit_facts d Hd)).
    rewrite <- Hdrev. apply rev_involutive.
Qed.

Lemma scan_digits_all (digits : pystr) :
  forall after_underscore acc,
    forallb Digits.is_digit digits = true ->
    digits <> [] \/ after_underscore = false ->
    PyInt.scan_digits after_underscore digits acc = Some (rev acc ++ digits, []).
Proof.
  induction digits as [ | d digits IH]; intros after_underscore acc Hdigits Hsome.
  - destruct Hsome as [Hsome | ->]; [ contradiction | ].
    simpl. rewrite app_nil_r. reflexivity.
  - simpl in *. apply andb_true_iff in Hdigits. destruct Hdigits as [Hd Hdigits].
    rewrite Hd, (IH false (d :: acc) Hdigits (or_intror eq_refl)).
    simpl. rewrite <- app_assoc. reflexivity.
Qed.

Lemma value_nonneg (digits : pystr) :
  forallb Digits.is_digit digits = true -> (0 <= Digits.value digits)%Z.
Proof.
  unfold Digits.value.
  assert (Hfold : forall acc, (0 <= acc)%Z ->
            forallb Digits.is_digit digits = true ->
            (0 <= fold_left (fun acc c => 10 * acc + (Z.of_N c - 48)) digits acc)%Z).
  { induction digits as [ | d digits IH]; intros acc Hacc Hdigits; [ exact Hacc | ].
    cbn [fold_left forallb] in *.
    apply andb_true_iff in Hdigits. destruct Hdigits as [Hd Hdigits].
    apply IH; [ | exact Hdigits ].
    pose proof (@digit_facts d Hd) as Hfacts. lia. }
  apply Hfold. lia.
Qed.

(** [int()] reads a run of ASCII digits as its value. *)
Lemma int_of_digits (digits : pystr) :
  digits <> [] ->
  forallb Digits.is_digit digits = true ->
  (List.length digits <= Digits.int_max_str_digits)%nat ->
  PyInt.int digits = Return (Digits.value digits).
Proof.
  intros Hsome Hdigits Hlength.
  assert (Hmap : List.map PyInt.to_ascii digits = digits).
  { clear Hsome Hlength. induction digits as [ | d digits IH]; [ reflexivity | ].
    simpl in *. apply andb_true_iff in Hdigits. destruct Hdigits as [Hd Hdigits].
    rewrite (IH Hdigits). f_equal. exact (proj1 (proj2 (proj2 (@digit_facts d Hd)))). }
  unfold PyInt.int. rewrite Hmap.
  pose proof (@scan_digits_all digits false [] Hdigits (or_introl Hsome)) as Hscan.
  destruct digits as [ | d digits ]; [ contradiction | ].
  pose proof Hdigits as Hd. simpl in Hd. apply andb_true_iff in Hd. destruct Hd as [Hd _].
  destruct (@digit_facts d Hd) as [_ [Hspace [_ [Hplus [Hminus [Hunder _]]]]]].
  cbn [PyInt.skip_spaces]. rewrite Hspace, Hplus, Hminus.
  cbn [startswith]. rewrite Hunder. cbn [andb].
  rewrite Hscan. cbn [rev app PyInt.skip_spaces].
  replace (Nat.ltb Digits.int_max_str_digits (List.length (d :: digits))) with false
    by (symmetry; apply Nat.ltb_ge; exact Hlength).
  reflexivity.
Qed.

(** A text without an opening brace has no JSON in it. *)
Lemma json_score_no_opening_brace (text : pystr) :
  lacks 123 text = true -> json_score (Some text) = Return None.
Proof.
  intros Hlacks. rewrite json_score_cases. cbv zeta.
  unfold find. change (str "{") with [123%N].
  rewrite <- (app_nil_r text) at 1.
  rewrite find_from_lacks_app by exact Hlacks. reflexivity.
Qed.

(** X8.  A plain reply that is a run of at most 4300 ASCII digits,
    possibly between white space, is scored by the number it spells,
    capped at 100, with three, three and four tenths of that score,
    rounded down, as sub-scores. *)
Theorem digits_reply_scores_its_value
        (request : ScoreRequest.t) (before digits after : pystr) :
  falls_back_on request (before ++ digits ++ after) ->
  forallb isspace before = true ->
  forallb isspace after = true ->
  digits <> [] ->
  forallb Digits.is_digit digits = true ->
  (List.length digits <= 4300)%nat ->
  let score := Z.min 100 (Digits.value digits) in
  fst (run (score_reasoning request))
  = Return {| Response.score := PyInt score;
              Response.breakdown :=
                {| Breakdown.score := PyInt score;
                   Breakdown.motive_points := PyInt (score * 3 / 10);
                   Breakdown.method_points := PyInt (score * 3 / 10);
                   Breakdown.logic_points := PyInt (score * 4 / 10) |} |}.
Proof.
  intros Hfalls Hbefore Hafter Hsome Hdigits Hlength score.
  assert (Hlacks : lacks 123 (before ++ digits ++ after) = true).
  { unfold lacks. rewrite !forallb_app.
    repeat (apply andb_true_iff; split); apply forallb_forall; intros x Hx.
    - apply space_is_no_brace. exact (proj1 (forallb_forall _ _) Hbefore x Hx).
    - apply digit_facts. exact (proj1 (forallb_forall _ _) Hdigits x Hx).
    - apply space_is_no_brace. exact (proj1 (forallb_forall _ _) Hafter x Hx). }
  rewrite (score_reasoning_falls_back Hfalls). simpl.
  unfold reply_score. rewrite json_score_no_opening_brace by exact Hlacks. simpl.
  rewrite (@strip_digits before digits after Hbefore Hafter Hsome Hdigits).
  rewrite (@number_score_int digits _ (@int_of_digits digits Hsome Hdigits Hlength)).
  pose proof (@value_nonneg digits Hdigits) as Hvalue.
  replace (clamp (Digits.value digits)) with score by (unfold clamp, score; lia).
  reflexivity.
Qed.


(* =================================================================== *)
(** ** More on the chat relay *)
(* =================================================================== *)

(** A chunk without a choice ends the generator where it stands. *)
Lemma generate_from_cut (before after : list ChatCompletionChunk)
      (bad : ChatCompletionChunk) (failure : option exn) :
  forallb has_choice before = true ->
  delta_choices bad = [] ->
  generate_from (before ++ bad :: after) failure
  = {| yielded := filter nonempty (fragments before); ended_by := Some IndexError |}.
Proof.
  intros Hbefore Hbad.
  induction before as [ | chunk before IH].
  - simpl. rewrite Hbad. reflexivity.
  - simpl in Hbefore. apply andb_true_iff in Hbefore. destruct Hbefore as [Hchunk Hbefore].
    specialize (IH Hbefore). unfold has_choice in Hchunk.
    cbn [app generate_from fragments flat_map]. fold (fragments before).
    destruct (delta_choices chunk) as [ | [[ | c text] | ] others]; simpl in *;
      [ discriminate | exact IH | rewrite IH; reflexivity | exact IH ].
Qed.

(** X9.  A streamed chunk without any choice is not skipped: the
    generator raises [IndexError] at it.  The handler has already
    returned its streaming response by then, so the caller gets the
    fragments of the chunks before it and then a body that ends in that
    error; the chunks after it are never forwarded, and the way the
    stream itself ended is not seen. *)
Theorem choiceless_chunk_cuts_the_stream
        (request : ChatRequest.t) (stream : Stream)
        (before after : list ChatCompletionChunk) (bad : ChatCompletionChunk) :
  create_stream client (chat_params request) = Return stream ->
  chunks stream = before ++ bad :: after ->
  forallb has_choice before = true ->
  delta_choices bad = [] ->
  fst (run (chat request))
  = Return {| body := {| yielded := filter nonempty (fragments before);
                         ended_by := Some IndexError |};
              media_type := str "text/plain" |}.
Proof.
  intros Hstream Hchunks Hbefore Hbad.
  rewrite chat_run, Hstream. unfold generate. rewrite Hchunks.
  rewrite (@generate_from_cut before after bad (failure stream) Hbefore Hbad).
  reflexivity.
Qed.

(** X10.  Of every streamed chunk only the first choice is read: the
    generator yields and ends the same whatever the other choices
    hold. *)
Theorem only_first_choice_is_streamed
        (chunks : list ChatCompletionChunk) (failure : option exn) :
  generate_from (List.map first_choice_only chunks) failure
  = generate_from chunks failure.
Proof.
  induction chunks as [ | chunk chunks IH]; [ reflexivity | ].
  cbn [List.map generate_from]. unfold first_choice_only at 1. cbn [delta_choices].
  destruct (delta_choices chunk) as [ | content others]; [ reflexivity | ].
  cbn [firstn index0]. rewrite IH. reflexivity.
Qed.


(* =================================================================== *)
(** ** The object the prompt asks for, read back *)
(* =================================================================== *)

Lemma span_digits_app (digits rest : pystr) :
  forallb Digits.is_digit digits = true ->
  match rest with [] => true | c :: _ => negb (Digits.is_digit c) end = true ->
  Digits.span Digits.is_digit (digits ++ rest) = (digits, rest).
Proof.
  intros Hdigits Hrest. induction digits as [ | d digits IH].
  - destruct rest as [ | c rest ]; [ reflexivity | ].
    simpl in *. apply negb_true_iff in Hrest. rewrite Hrest. reflexivity.
  - simpl in *. apply andb_true_iff in Hdigits. destruct Hdigits as [Hd Hdigits].
    rewrite Hd, (IH Hdigits). reflexivity.
Qed.

Lemma ends_number_cases (c : char) : ends_number c = true -> c = 44%N \/ c = 125%N.
Proof.
  unfold ends_number. intros H. apply orb_true_iff in H.
  destruct H as [H | H]; apply N.eqb_eq in H; auto.
Qed.

(** The number scanner reads a natural number up to the comma or brace
    that follows it. *)
Lemma match_number_natural (digits : pystr) (c : char) (rest : pystr) :
  is_json_natural digits = true ->
  ends_number c = true ->
  Json.match_number (digits ++ c :: rest)
  = Json.Parsed (PyInt (Digits.value digits)) (c :: rest).
Proof.
  intros Hnatural Hc.
  destruct digits as [ | d more ]; [ discriminate | ].
  unfold is_json_natural in Hnatural.
  apply andb_true_iff in Hnatural. destruct Hnatural as [Hnatural Hlength].
  apply andb_true_iff in Hnatural. destruct Hnatural as [Hdigits Hlead].
  apply Nat.leb_le in Hlength.
  pose proof Hdigits as Hd. cbn [forallb] in Hd.
  apply andb_true_iff in Hd. destruct Hd as [Hd Hmore].
  assert (Hspan : Digits.span Digits.is_digit (more ++ c :: rest) = (more, c :: rest)).
  { apply span_digits_app; [ exact Hmore | ].
    destruct (ends_number_cases c Hc) as [-> | ->]; reflexivity. }
  assert (Hlen : Nat.ltb Digits.int_max_str_digits (List.length (d :: more)) = false)
    by (apply Nat.ltb_ge; exact Hlength).
  unfold Json.match_number. cbn [app].
  destruct (digit_cases d Hd) as [-> | Hnonzero].
  - (* a leading zero stands alone *)
    destruct more as [ | m more ]; [ | discriminate ].
    destruct (ends_number_cases c Hc) as [-> | ->]; destruct rest; reflexivity.
  - replace (N.eqb d 45) with false
      by (repeat destruct Hnonzero as [Hnonzero | Hnonzero]; subst d; reflexivity).
    replace (between 49 57 d) with true
      by (repeat destruct Hnonzero as [Hnonzero | Hnonzero]; subst d; reflexivity).
    rewrite Hspan.
    destruct (ends_number_cases c Hc) as [-> | ->]; destruct rest;
      cbv beta iota zeta; cbn [N.eqb Pos.eqb andb orb]; rewrite Hlen; reflexivity.
Qed.


Lemma natural_head (digits : pystr) :
  is_json_natural digits = true ->
  exists d more, digits = d :: more /\ Digits.is_digit d = true.
Proof.
  destruct digits as [ | d more ]; [ discriminate | ].
  unfold is_json_natural. intros H.
  apply andb_true_iff in H. destruct H as [H _].
  apply andb_true_iff in H. destruct H as [H _].
  cbn [forallb] in H. apply andb_true_iff in H. destruct H as [Hd _].
  eauto.
Qed.

Lemma skip_ws_natural (digits rest : pystr) :
  is_json_natural digits = true ->
  Json.skip_ws (digits ++ rest) = digits ++ rest.
Proof.
  intros H. destruct (natural_head digits H) as [d [more [-> Hd]]].
  destruct (digit_cases d Hd) as [Hcase | Hcase];
    repeat destruct Hcase as [Hcase | Hcase]; subst d; reflexivity.
Qed.

(** The scanner reads a natural number as an [int] of its value. *)
Lemma scan_once_natural (fuel : nat) (digits : pystr) (c : char) (rest : pystr) :
  is_json_natural digits = true ->
  ends_number c = true ->
  Json.scan_once (S fuel) (digits ++ c :: rest)
  = Json.Parsed (PyInt (Digits.value digits)) (c :: rest).
Proof.
  intros Hnatural Hc.
  pose proof (@match_number_natural digits c rest Hnatural Hc) as Hnumber.
  destruct (natural_head digits Hnatural) as [d [more [-> Hd]]].
  cbn [app] in *. cbn [Json.scan_once].
  destruct (digit_cases d Hd) as [Hcase | Hcase];
    repeat destruct Hcase as [Hcase | Hcase]; subst d; exact Hnumber.
Qed.

Lemma scanstring_plain (key rest acc : pystr) :
  forallb plain_char key = true ->
  Json.scanstring (key ++ 34%N :: rest) acc = Json.Parsed (rev acc ++ key) rest.
Proof.
  revert acc. induction key as [ | c key IH ]; intros acc Hkey.
  - cbn [app Json.scanstring]. change (34 =? 34)%N with true. cbv iota.
    now rewrite app_nil_r.
  - cbn [forallb] in Hkey. apply andb_true_iff in Hkey. destruct Hkey as [Hc Hkey].
    unfold plain_char in Hc.
    apply andb_true_iff in Hc. destruct Hc as [Hc Hcontrol].
    apply andb_true_iff in Hc. destruct Hc as [Hquote Hslash].
    apply negb_true_iff in Hquote, Hslash, Hcontrol.
    cbn [app Json.scanstring]. rewrite Hquote, Hslash, Hcontrol.
    rewrite IH by exact Hkey. cbn [rev]. now rewrite <- app_assoc.
Qed.

(** One pair of an object whose value is a natural number: the pair is
    recorded, and the scanner stops at a closing brace or goes on after
    a comma. *)
Lemma object_pairs_natural (fuel : nat) (key digits : pystr) (c : char)
    (rest : pystr) (acc : pydict) :
  forallb plain_char key = true ->
  is_json_natural digits = true ->
  ends_number c = true ->
  Json.object_pairs (S (S fuel))
    (34%N :: key ++ 34%N :: 58%N :: 32%N :: digits ++ c :: rest) acc
  = if N.eqb c 125
    then Json.Parsed (PyDict (dict_set acc key (PyInt (Digits.value digits)))) rest
    else Json.object_pairs (S fuel) (Json.skip_ws rest)
           (dict_set acc key (PyInt (Digits.value digits))).
Proof.
  intros Hkey Hnatural Hc.
  cbn [Json.object_pairs]. change (34 =? 34)%N with true. cbv iota.
  rewrite scanstring_plain by exact Hkey. cbn [rev app].
  change (Json.skip_ws (58%N :: 32%N :: digits ++ c :: rest))
    with (58%N :: 32%N :: digits ++ c :: rest).
  cbv iota. change (58 =? 58)%N with true. cbv iota.
  change (Json.skip_ws (32%N :: digits ++ c :: rest))
    with (Json.skip_ws (digits ++ c :: rest)).
  rewrite skip_ws_natural by exact Hnatural.
  rewrite (@scan_once_natural fuel digits c rest Hnatural Hc).
  destruct (ends_number_cases c Hc) as [-> | ->]; reflexivity.
Qed.

Lemma score_object_text_unfolded (score motive method logic : pystr) :
  score_object_text score motive method logic
  = 123%N :: 34%N :: str "score" ++ 34%N :: 58%N :: 32%N :: score ++ 44%N :: 32%N
    :: 34%N :: str "motive_points" ++ 34%N :: 58%N :: 32%N :: motive ++ 44%N :: 32%N
    :: 34%N :: str "method_points" ++ 34%N :: 58%N :: 32%N :: method ++ 44%N :: 32%N
    :: 34%N :: str "logic_points" ++ 34%N :: 58%N :: 32%N :: logic ++ 125%N :: [].
Proof.
  unfold score_object_text, score_object_body, quoted.
  repeat rewrite <- app_assoc. reflexivity.
Qed.

(** The object of the prompt decodes to its four numbers. *)
Lemma loads_score_object (score motive method logic : pystr) :
  is_json_natural score = true ->
  is_json_natural motive = true ->
  is_json_natural method = true ->
  is_json_natural logic = true ->
  Json.loads (score_object_text score motive method logic)
  = Return (PyDict [ (str "score", PyInt (Digits.value score));
                     (str "motive_points", PyInt (Digits.value motive));
                     (str "method_points", PyInt (Digits.value method));
                     (str "logic_points", PyInt (Digits.value logic)) ]).
Proof.
  intros Hscore Hmotive Hmethod Hlogic.
  unfold Json.loads.
  remember (2 * List.length (score_object_text score motive method logic))%nat as n eqn:Hn.
  assert (Hfuel : (5 <= n)%nat).
  { subst n. rewrite score_object_text_unfolded. simpl. lia. }
  do 5 (destruct n as [ | n ]; [ lia | ]). clear Hn Hfuel.
  rewrite score_object_text_unfolded.
  change (startswith (123%N :: ?t) [65279%N]) with false. cbv iota.
  match goal with
  | |- context [Json.skip_ws (123%N :: ?t)] =>
      change (Json.skip_ws (123%N :: t)) with (123%N :: t)
  end.
  cbn [Json.scan_once]. change (123 =? 34)%N with false.
  change (123 =? 123)%N with true. cbv iota.
  match goal with
  | |- context [Json.skip_ws (34%N :: ?t)] =>
      change (Json.skip_ws (34%N :: t)) with (34%N :: t)
  end.
  cbv iota. change (34 =? 125)%N with false. cbv iota.
  rewrite (@object_pairs_natural (S (S (S n))) (str "score") score 44%N _ []
             eq_refl Hscore eq_refl).
  change (44 =? 125)%N with false. cbv iota.
  match goal with
  | |- context [Json.skip_ws (32%N :: 34%N :: ?t)] =>
      change (Json.skip_ws (32%N :: 34%N :: t)) with (34%N :: t)
  end.
  rewrite (@object_pairs_natural (S (S n)) (str "motive_points") motive 44%N _ _
             eq_refl Hmotive eq_refl).
  change (44 =? 125)%N with false. cbv iota.
  match goal with
  | |- context [Json.skip_ws (32%N :: 34%N :: ?t)] =>
      change (Json.skip_ws (32%N :: 34%N :: t)) with (34%N :: t)
  end.
  rewrite (@object_pairs_natural (S n) (str "method_points") method 44%N _ _
             eq_refl Hmethod eq_refl).
  change (44 =? 125)%N with false. cbv iota.
  match goal with
  | |- context [Json.skip_ws (32%N :: 34%N :: ?t)] =>
      change (Json.skip_ws (32%N :: 34%N :: t)) with (34%N :: t)
  end.
  rewrite (@object_pairs_natural n (str "logic_points") logic 125%N [] _
             eq_refl Hlogic eq_refl).
  reflexivity.
Qed.


(** X12.  The plain request's system prompt shows the object to answer
    with (line 115).  A reply that holds an object of that shape, with
    four natural numbers written in decimal, is scored with exactly those
    numbers, whatever prose without braces surrounds it: the JSON tier
    neither caps the score at 100 nor checks that the sub-scores add up
    to it. *)
Theorem prompted_object_is_read_back
        (request : ScoreRequest.t) (before after score motive method logic : pystr) :
  falls_back_on request (before ++ score_object_text score motive method logic ++ after) ->
  lacks 123 before = true ->
  lacks 125 after = true ->
  is_json_natural score = true ->
  is_json_natural motive = true ->
  is_json_natural method = true ->
  is_json_natural logic = true ->
  fst (run (score_reasoning request))
  = Return {| Response.score := PyInt (Digits.value score);
              Response.breakdown :=
                {| Breakdown.score := PyInt (Digits.value score);
                   Breakdown.motive_points := PyInt (Digits.value motive);
                   Breakdown.method_points := PyInt (Digits.value method);
                   Breakdown.logic_points := PyInt (Digits.value logic) |} |}.
Proof.
  intros Hfalls Hbefore Hafter Hscore Hmotive Hmethod Hlogic.
  rewrite (score_reasoning_falls_back Hfalls). cbn [fst].
  unfold reply_score.
  pose proof (@loads_score_object score motive method logic
                Hscore Hmotive Hmethod Hlogic) as Hloads.
  revert Hloads.
  change (score_object_text score motive method logic)
    with (123%N :: score_object_body score motive method logic ++ [125%N]).
  intros Hloads.
  destruct (@braces_delimit_object before
              (score_object_body score motive method logic) after Hbefore Hafter)
    as [Hstart [Hstop Hslice]].
  rewrite json_score_cases. cbv zeta.
  rewrite Hslice, Hloads.
  replace (0 <=? find _ _)%Z with true by (symmetry; apply Z.leb_le; exact Hstart).
  replace (find _ _ <? rfind _ _ + 1)%Z with true by (symmetry; apply Z.ltb_lt; exact Hstop).
  reflexivity.
Qed.


(** X13.  The chat relay answers with an error exactly when the upstream
    call itself fails, and the error is then an HTTP 500 whose detail is
    the text of the failure.  Once the call has returned a stream the
    handler returns a response, whatever the stream does later: a failure
    while the stream is read ends the body and is no HTTP error. *)
Theorem chat_errors_characterised (request : ChatRequest.t) :
  (forall e,
      fst (run (chat request)) = Raise e
      <-> exists cause,
            create_stream client (chat_params request) = Raise cause
            /\ e = HTTPException 500 (exn_str cause))
  /\ (forall stream,
         create_stream client (chat_params request) = Return stream ->
         exists response,
           fst (run (chat request)) = Return response
           /\ yielded (body response)
              = filter nonempty (fragments (consumed (chunks stream)))
           /\ (forallb has_choice (chunks stream) = true ->
               ended_by (body response) = failure stream)).
Proof.
  rewrite chat_run. cbn [fst]. split.
  - intros e. split.
    + destruct (create_stream client (chat_params request)) as [stream | cause];
        [ discriminate | ].
      intros Hraise. injection Hraise as <-. exists cause. split; reflexivity.
    + intros [cause [-> ->]]. reflexivity.
  - intros stream ->. eexists. split; [ reflexivity | ].
    cbn [body]. unfold generate. split.
    + apply generate_from_yields.
    + intros Hall. apply generate_from_ends. exact Hall.
Qed.

End Backend.

(* ===================================================================== *)
(** ** The properties at work on concrete requests *)
(* ===================================================================== *)

Import Fixtures.

(** With a provider that refuses schema-constrained requests, a long
    enough correct accusation is scored from the text of the plain
    reply. *)
Ltac scored_from_reply :=
  split; [ split; reflexivity
         | split; [ exists unsupported; reflexivity | exists []; reflexivity ] ].

(** A wrong accusation, with the provider out of reach. *)
Lemma incorrect_scores_zero_witness :
  ScoreRequest.is_correct wrong_accusation = false
  /\ run (score_reasoning no_env ellipsis unreachable_client wrong_accusation)
     = (Return (fixed_response 0 0 0 0), []).
Proof.
  split; [ reflexivity | ].
  apply (@incorrect_scores_zero no_env ellipsis unreachable_client wrong_accusation).
  reflexivity.
Defined.

(** A correct accusation of thirteen characters. *)
Lemma short_reasoning_scores_ten_witness :
  (len (ScoreRequest.reasoning terse_accusation) < 20)%Z
  /\ run (score_reasoning no_env ellipsis unreachable_client terse_accusation)
     = (Return (fixed_response 10 3 3 4), []).
Proof.
  split; [ reflexivity | ].
  apply (@short_reasoning_scores_ten no_env ellipsis unreachable_client terse_accusation);
    reflexivity.
Defined.

(** The two replies with a JSON object in them. *)
Lemma json_tier_reads_object_witness :
  (exists d,
      PyDict [(str "score", PyInt 60)] = PyDict d
      /\ fst (run (score_reasoning no_env ellipsis
                     (unstructured_client (Some partial_object_text)) accusation))
         = Return (object_score d))
  /\ fst (run (score_reasoning no_env ellipsis
                 (unstructured_client (Some full_object_text)) accusation))
     = Return (fixed_response 77 20 22 35)
  /\ fst (run (score_reasoning no_env ellipsis
                 (unstructured_client (Some partial_object_text)) accusation))
     = Return (fixed_response 60 15 15 20).
Proof.
  split; [ | split ].
  - apply (proj1 (json_tier_reads_object no_env ellipsis
                    (unstructured_client (Some partial_object_text)))
             accusation partial_object_text (PyDict [(str "score", PyInt 60)])).
    + scored_from_reply.
    + apply Z.leb_le. vm_compute. reflexivity.
    + apply Z.ltb_lt. vm_compute. reflexivity.
    + vm_compute. reflexivity.
  - apply (proj1 (proj2 (json_tier_reads_object no_env ellipsis
                           (unstructured_client (Some full_object_text))))).
    scored_from_reply.
  - apply (proj2 (proj2 (json_tier_reads_object no_env ellipsis
                           (unstructured_client (Some partial_object_text))))).
    scored_from_reply.
Defined.

(** A reply of 250, clamped to 100, and the reply of 88. *)
Lemma number_tier_clamps_and_splits_witness :
  fst (run (score_reasoning no_env ellipsis
              (unstructured_client (Some (str "250"))) accusation))
  = Return (fixed_response 100 30 30 40)
  /\ fst (run (score_reasoning no_env ellipsis
                 (unstructured_client (Some bare_number_text)) accusation))
     = Return (fixed_response 88 26 26 35).
Proof.
  split.
  - apply (proj1 (number_tier_clamps_and_splits no_env ellipsis
                    (unstructured_client (Some (str "250"))))
             accusation (str "250") 250%Z).
    + scored_from_reply.
    + vm_compute. reflexivity.
    + vm_compute. reflexivity.
  - apply (proj2 (number_tier_clamps_and_splits no_env ellipsis
                    (unstructured_client (Some bare_number_text)))).
    scored_from_reply.
Defined.

(** A brace pair around a word, which is neither JSON nor a number, and
    the reply that declines to score. *)
Lemma unparseable_reply_scores_default_witness :
  fst (run (score_reasoning no_env ellipsis
              (unstructured_client (Some (str "{ninety}"))) accusation))
  = Return (fixed_response 50 15 15 20)
  /\ fst (run (score_reasoning no_env ellipsis
                 (unstructured_client (Some refusal_text)) accusation))
     = Return (fixed_response 50 15 15 20).
Proof.
  split.
  - apply (proj1 (unparseable_reply_scores_default no_env ellipsis
                    (unstructured_client (Some (str "{ninety}"))))
             accusation (str "{ninety}") PyInt.ValueError).
    + scored_from_reply.
    + vm_compute. reflexivity.
    + vm_compute. reflexivity.
  - apply (proj2 (unparseable_reply_scores_default no_env ellipsis
                    (unstructured_client (Some refusal_text)))).
    scored_from_reply.
Defined.

(** The stream of three fragments. *)
Lemma chat_forwards_fragments_in_order_witness :
  exists response,
    fst (run (chat no_env (streaming_client (stream_of hello_world)) interview))
    = Return response
    /\ yielded (body response) = [str "Hello"; str ", "; str "world"]
    /\ List.concat (yielded (body response)) = str "Hello, world"
    /\ ended_by (body response) = None.
Proof.
  apply (proj1 (proj2 (chat_forwards_fragments_in_order no_env
                         (streaming_client (stream_of hello_world))))
           interview (stream_of hello_world));
    reflexivity.
Defined.

(** C6, as first stated, fails.  Of the stream that delivers "Hello", a
    chunk without a choice and "world", the caller gets "Hello" and then
    a body that ends in an error: "world" is never forwarded.  So it is
    not for every upstream stream that the caller observes what the
    fragments spell. *)
Lemma world_is_never_forwarded :
  fragments (chunks cut_stream) = [str "Hello"; str "world"]
  /\ fst (run (chat no_env (streaming_client cut_stream) interview))
     = Return {| body := {| yielded := [str "Hello"]; ended_by := Some IndexError |};
                 media_type := str "text/plain" |}
  /\ ~ (forall stream request,
           exists response,
             fst (run (chat no_env (streaming_client stream) request)) = Return response
             /\ List.concat (yielded (body response))
                = List.concat (fragments (chunks stream))).
Proof.
  split; [ reflexivity | split; [ reflexivity | ] ].
  intros Hall.
  destruct (Hall cut_stream interview) as [response [Hreturn Hspelt]].
  vm_compute in Hreturn. injection Hreturn as <-.
  vm_compute in Hspelt. discriminate Hspelt.
Qed.

(** C7.  The claim says that the tier chain always yields a numeric
    result.  The handler run on a plain reply whose JSON object gives
    the score in words: the request is scored from that reply, and the
    response carries those words as the score, which is no number,
    beside the integer defaults of the three keys the object lacks. *)
Lemma worded_score_is_passed_on :
  falls_back_on no_env ellipsis (unstructured_client (Some worded_score_text))
    accusation worded_score_text
  /\ fst (run (score_reasoning no_env ellipsis
                 (unstructured_client (Some worded_score_text)) accusation))
     = Return {| Response.score := PyStr (str "high");
                 Response.breakdown :=
                   {| Breakdown.score := PyStr (str "high");
                      Breakdown.motive_points := PyInt 15;
                      Breakdown.method_points := PyInt 15;
                      Breakdown.logic_points := PyInt 20 |} |}
  /\ is_number (PyStr (str "high")) = false.
Proof.
  split; [ | split ].
  - scored_from_reply.
  - vm_compute. reflexivity.
  - reflexivity.
Qed.

(** The reply that declines to score is absorbed; a score the provider
    returns in the schema is a response of integers; a provider out of
    reach is answered with the internal error. *)
Lemma parse_failures_are_absorbed_witness :
  (exists response,
      fst (run (score_reasoning no_env ellipsis
                  (unstructured_client (Some refusal_text)) accusation))
      = Return response
      /\ (all_integers response
          \/ exists d,
               Json.loads (slice refusal_text (find refusal_text (str "{"))
                                 (rfind refusal_text (str "}") + 1))
               = Return (PyDict d)
               /\ response = object_score d))
  /\ (fst (run (score_reasoning no_env ellipsis
                  (structured_client
                     {| ReasoningScore.score := 85;
                        ReasoningScore.motive_points := 25;
                        ReasoningScore.method_points := 28;
                        ReasoningScore.logic_points := 32 |})
                  accusation))
      = Return (fixed_response 85 25 28 32)
      /\ all_integers (fixed_response 85 25 28 32))
  /\ fst (run (score_reasoning no_env ellipsis unreachable_client accusation))
     = Raise (HTTPException 500 (str "Error scoring reasoning: Connection error.")).
Proof.
  split; [ | split ].
  - apply (proj1 (parse_failures_are_absorbed no_env ellipsis
                    (unstructured_client (Some refusal_text)))).
    scored_from_reply.
  - apply (proj1 (proj2 (parse_failures_are_absorbed no_env ellipsis
                           (structured_client
                              {| ReasoningScore.score := 85;
                                 ReasoningScore.motive_points := 25;
                                 ReasoningScore.method_points := 28;
                                 ReasoningScore.logic_points := 32 |})))
             accusation).
    + split; reflexivity.
    + reflexivity.
  - apply (proj2 (proj2 (proj2 (parse_failures_are_absorbed no_env ellipsis
                                  unreachable_client)))
             accusation unreachable).
    + split; reflexivity.
    + exists unreachable. reflexivity.
    + reflexivity.
Defined.

(** The prompt of a request whose solution names nothing, and of one
    whose solution names the culprit only. *)
Lemma missing_solution_keys_render_unknown_witness :
  build_prompt ellipsis accusation
  = str "THE CORRECT SOLUTION:" ++ [10%N]
    ++ str "- Culprit: Unknown" ++ [10%N]
    ++ str "- Method: Unknown" ++ [10%N]
    ++ str "- Motive: Unknown" ++ [10%N; 10%N]
    ++ str "THE DETECTIVE'S REASONING:" ++ [10%N; 34%N]
    ++ str "The gardener switched the glasses after dinner." ++ [34%N; 10%N; 10%N]
    ++ str "Evaluate the reasoning and provide a structured score."
  /\ build_prompt ellipsis terse_accusation
     = str "THE CORRECT SOLUTION:" ++ [10%N]
       ++ str "- Culprit: gardener" ++ [10%N]
       ++ str "- Method: Unknown" ++ [10%N]
       ++ str "- Motive: Unknown" ++ [10%N; 10%N]
       ++ str "THE DETECTIVE'S REASONING:" ++ [10%N; 34%N]
       ++ str "The gardener." ++ [34%N; 10%N; 10%N]
       ++ str "Evaluate the reasoning and provide a structured score.".
Proof.
  split.
  - apply (proj1 (proj2 (proj2 (missing_solution_keys_render_unknown no_env ellipsis
                                  unreachable_client)))
             accusation).
    intros key _ Hin. exact Hin.
  - exact (proj1 (missing_solution_keys_render_unknown no_env ellipsis
                    unreachable_client)
             terse_accusation).
Defined.

(** A chat request without messages. *)
Lemma chat_prepends_system_prompt_witness :
  upstream_messages silent_interview
  = [ {| Message.role := system; Message.content := str "You are the butler." |} ]
  /\ fst (run (chat no_env (streaming_client (stream_of [])) silent_interview))
     = Return {| body := {| yielded := []; ended_by := None |};
                 media_type := str "text/plain" |}.
Proof.
  split.
  - apply (proj1 (proj2 (chat_prepends_system_prompt no_env unreachable_client))
             silent_interview).
    reflexivity.
  - apply (proj1 (proj2 (proj2 (proj2 (chat_prepends_system_prompt no_env
                                         (streaming_client (stream_of []))))))
             silent_interview (stream_of [])).
    reflexivity.
Defined.

(** The response read off the object with only a score. *)
Lemma score_matches_breakdown_witness :
  Response.score (object_score [(str "score", PyInt 60)])
  = Breakdown.score (Response.breakdown (object_score [(str "score", PyInt 60)])).
Proof.
  apply (@score_matches_breakdown no_env ellipsis
           (unstructured_client (Some partial_object_text)) accusation).
  vm_compute. reflexivity.
Defined.

(** A score of 150 returned in the schema is passed on as it is. *)
Lemma structured_result_is_returned_unchanged_witness :
  run (score_reasoning no_env ellipsis (structured_client generous_result) accusation)
  = (Return {| Response.score := PyInt 150;
               Response.breakdown :=
                 {| Breakdown.score := PyInt 150;
                    Breakdown.motive_points := PyInt 50;
                    Breakdown.method_points := PyInt 50;
                    Breakdown.logic_points := PyInt 50 |} |},
     [ beta_chat_completions_parse
         (scoring_params no_env structured_system_prompt (build_prompt ellipsis accusation)) ]).
Proof.
  apply (@structured_result_is_returned_unchanged no_env ellipsis
           (structured_client generous_result) accusation
           {| parsed_choices := [Some generous_result] |} generous_result []).
  - split; reflexivity.
  - reflexivity.
  - reflexivity.
Defined.

(** With a provider that refuses the schema both calls are made; with
    one that honours it, only the first. *)
Lemma score_calls_structured_then_plain_witness :
  List.length (snd (run (score_reasoning no_env ellipsis
                           (unstructured_client (Some refusal_text)) accusation))) = 2%nat
  /\ List.length (snd (run (score_reasoning no_env ellipsis
                              (structured_client generous_result) accusation))) = 1%nat.
Proof.
  split.
  - destruct (@score_calls_structured_then_plain no_env ellipsis
                (unstructured_client (Some refusal_text)) accusation
                (conj eq_refl eq_refl)) as [[_ ->] | [Hnot _]]; [ reflexivity | ].
    exfalso. apply Hnot. left. exists unsupported. reflexivity.
  - destruct (@score_calls_structured_then_plain no_env ellipsis
                (structured_client generous_result) accusation
                (conj eq_refl eq_refl)) as [[Hnone _] | [_ ->]]; [ | reflexivity ].
    exfalso. destruct Hnone as [[e He] | [[c [Hc Hnone]] | [c [rest [Hc Hnone]]]]];
      try discriminate; injection Hc as <-; discriminate.
Defined.

(** A provider out of reach: both requests raise, and the handler raises
    the internal error with the message of the second. *)
Lemma score_errors_characterised_witness :
  fst (run (score_reasoning no_env ellipsis unreachable_client accusation))
  = Raise (HTTPException 500 (str "Error scoring reasoning: " ++ exn_str unreachable)).
Proof.
  apply (proj2 (@score_errors_characterised no_env ellipsis unreachable_client accusation
                  (HTTPException 500 (str "Error scoring reasoning: " ++ exn_str unreachable)))).
  split; [ split; reflexivity | ].
  split; [ left; exists unreachable; reflexivity | ].
  exists unreachable. split; [ left; reflexivity | reflexivity ].
Defined.

(** Twenty characters are enough to consult the model; thirteen are
    not. *)
Lemma model_consulted_iff_witness :
  snd (run (score_reasoning no_env ellipsis unreachable_client twenty_characters)) <> []
  /\ ~ (ScoreRequest.is_correct terse_accusation = true
        /\ (20 <= len (ScoreRequest.reasoning terse_accusation))%Z).
Proof.
  split.
  - apply (proj2 (@model_consulted_iff no_env ellipsis unreachable_client twenty_characters)).
    split; [ reflexivity | vm_compute; discriminate ].
  - intros H.
    apply (proj2 (@model_consulted_iff no_env ellipsis unreachable_client terse_accusation)) in H.
    apply H. reflexivity.
Defined.

(** The reply with the full object between a prefix and a suffix. *)
Lemma prose_around_object_is_ignored_witness :
  json_score (Some (str "prefix " ++ (123%N :: (quoted (str "score") ++ str ": 77") ++ [125%N])
                      ++ str " suffix"))
  = match Json.loads (123%N :: (quoted (str "score") ++ str ": 77") ++ [125%N]) with
    | Return (PyDict d) => Return (Some (object_score d))
    | _ => Return None
    end.
Proof.
  apply (@prose_around_object_is_ignored (str "prefix ") (quoted (str "score") ++ str ": 77")
           (str " suffix"));
    reflexivity.
Defined.

(** A closing brace, then prose, then an opening brace. *)
Lemma braces_out_of_order_give_no_object_witness :
  json_score (Some (str "} 85 " ++ str "{")) = Return None.
Proof.
  apply (@braces_out_of_order_give_no_object (str "} 85 ") (str "{")); reflexivity.
Defined.

(** The reply of 88 between blanks: 26 + 26 + 35 is 87. *)
Lemma number_tier_sub_scores_witness :
  exists score motive logic,
    fst (run (score_reasoning no_env ellipsis
                (unstructured_client (Some bare_number_text)) accusation))
    = Return {| Response.score := PyInt score;
                Response.breakdown :=
                  {| Breakdown.score := PyInt score;
                     Breakdown.motive_points := PyInt motive;
                     Breakdown.method_points := PyInt motive;
                     Breakdown.logic_points := PyInt logic |} |}
    /\ (0 <= score <= 100)%Z
    /\ (88 <= 0 -> score = 0)%Z
    /\ (0 <= 88 <= 100 -> score = 88)%Z
    /\ (100 <= 88 -> score = 100)%Z
    /\ (0 <= motive <= 30)%Z
    /\ (0 <= logic <= 40)%Z
    /\ (score - 2 <= motive + motive + logic <= score)%Z
    /\ (motive + motive + logic = score <-> score mod 10 = 0)%Z.
Proof.
  apply (@number_tier_sub_scores no_env ellipsis
           (unstructured_client (Some bare_number_text)) accusation bare_number_text 88%Z).
  - scored_from_reply.
  - vm_compute. reflexivity.
  - vm_compute. reflexivity.
Defined.

(** The reply of 0250 after a tab: capped at 100. *)
Lemma digits_reply_scores_its_value_witness :
  fst (run (score_reasoning no_env ellipsis
              (unstructured_client (Some ([9%N] ++ str "0250" ++ []))) accusation))
  = Return {| Response.score := PyInt 100;
              Response.breakdown :=
                {| Breakdown.score := PyInt 100;
                   Breakdown.motive_points := PyInt 30;
                   Breakdown.method_points := PyInt 30;
                   Breakdown.logic_points := PyInt 40 |} |}.
Proof.
  apply (@digits_reply_scores_its_value no_env ellipsis
           (unstructured_client (Some ([9%N] ++ str "0250" ++ []))) accusation
           [9%N] (str "0250") []).
  - scored_from_reply.
  - reflexivity.
  - reflexivity.
  - discriminate.
  - reflexivity.
  - vm_compute. repeat constructor.
Defined.

(** The stream cut between its two fragments. *)
Lemma choiceless_chunk_cuts_the_stream_witness :
  fst (run (chat no_env (streaming_client cut_stream) interview))
  = Return {| body := {| yielded := [str "Hello"]; ended_by := Some IndexError |};
              media_type := str "text/plain" |}.
Proof.
  apply (@choiceless_chunk_cuts_the_stream no_env (streaming_client cut_stream) interview
           cut_stream [text_chunk (str "Hello")] [text_chunk (str "world")]
           {| delta_choices := [] |});
    reflexivity.
Defined.

(** A score of 250 with sub-scores that do not add up to it, between two
    sentences. *)
Lemma prompted_object_is_read_back_witness :
  fst (run (score_reasoning no_env ellipsis
              (unstructured_client
                 (Some (str "Here it is: "
                        ++ score_object_text (str "250") (str "7") (str "0") (str "12")
                        ++ str " Good luck.")))
              accusation))
  = Return {| Response.score := PyInt 250;
              Response.breakdown :=
                {| Breakdown.score := PyInt 250;
                   Breakdown.motive_points := PyInt 7;
                   Breakdown.method_points := PyInt 0;
                   Breakdown.logic_points := PyInt 12 |} |}.
Proof.
  apply (@prompted_object_is_read_back no_env ellipsis
           (unstructured_client
              (Some (str "Here it is: "
                     ++ score_object_text (str "250") (str "7") (str "0") (str "12")
                     ++ str " Good luck.")))
           accusation
           (str "Here it is: ") (str " Good luck.")
           (str "250") (str "7") (str "0") (str "12")).
  - scored_from_reply.
  - reflexivity.
  - reflexivity.
  - reflexivity.
  - reflexivity.
  - reflexivity.
  - reflexivity.
Defined.

(** A connection that drops while the stream is read: the response is
    returned all the same, and its body ends with the failure. *)
Lemma chat_errors_characterised_witness :
  exists response,
    fst (run (chat no_env (streaming_client interrupted_stream) interview))
    = Return response
    /\ yielded (body response) = [str "Hello"]
    /\ ended_by (body response) = Some unreachable.
Proof.
  destruct (proj2 (chat_errors_characterised no_env
                     (streaming_client interrupted_stream) interview)
              interrupted_stream eq_refl)
    as [response [Hreturn [Hyielded Hended]]].
  exists response.
  split; [ exact Hreturn | split; [ exact Hyielded | exact (Hended eq_refl) ] ].
Defined.
